(** * dbus-starlink: the Starlink dish to Venus OS D-Bus bridge

    A shallow embedding of [starlink.py] and the properties of its device
    bridge: the gRPC client [Dishy], the derived device identity, the
    published attribute tree kept by [DbusService], the persisted custom
    name, and the timer that drives [refresh].

    Conventions.
    - A Python [str] is represented by its UTF-8 encoding, held in a Rocq
      [string] (a sequence of 8-bit characters).  Protobuf string fields
      are UTF-8 on the wire, so [s.encode()] is the byte sequence of the
      representation and concatenation is [++].
    - A Python [float] is an IEEE 754 binary64 value, held as a
      [spec_float]: zero, infinity, NaN, or [(-1)^s * m * 2^e].
    - A Python [dict] (and the dict-like [VeDbusService]) is a [gmap].
    - Python statements run in the monad [M]: state passing over the
      process state [World], with exceptions. A raise keeps the state
      reached so far, as mutation of Python objects does. *)

From Stdlib Require Import ZArith Ascii String List SpecFloat.
From stdpp Require Import base option gmap strings list.

Local Open Scope Z_scope.
Local Open Scope string_scope.

(* ===================================================================== *)
(** ** Python values, exceptions, strings                                 *)
(* ===================================================================== *)

Module Py.

(** The exceptions that the program can meet. [RpcError] is
    [grpc.RpcError] with its status code and details. *)
Inductive exn : Type :=
| RpcError (code details : string)
| AttributeError (obj attr : string)
| KeyError (key : string)
| TypeError (what : string)
| ValueError (what : string)
| OverflowError (what : string).

(** Transport-level failures are exactly the gRPC errors. *)
Definition is_transport (e : exn) : bool :=
  match e with RpcError _ _ => true | _ => false end.

(** The values stored in the published tree. *)
Inductive value : Type :=
| VInt (z : Z)
| VFloat (f : spec_float)
| VStr (s : string).

(** What a function called back by a library hands over: [None] when
    the body ends without a [return]. *)
Inductive retval : Type :=
| RNone
| RBool (b : bool).

(** Python truthiness ([bool(x)]). *)
Definition truthy (r : retval) : bool :=
  match r with RNone => false | RBool b => b end.

(** [int(x)] for a float [x]: the integral part, rounding toward zero;
    [OverflowError] on an infinity and [ValueError] on a NaN. *)
Definition int_of_float (f : spec_float) : exn + Z :=
  match f with
  | S754_zero _ => inr 0
  | S754_infinity _ => inl (OverflowError "cannot convert float infinity to integer")
  | S754_nan => inl (ValueError "cannot convert float NaN to integer")
  | S754_finite s m e =>
      let mag := Z.shiftl (Z.pos m) e in
      inr (if s then - mag else mag)
  end.

Definition is_finite (f : spec_float) : bool :=
  match f with
  | S754_zero _ | S754_finite _ _ _ => true
  | S754_infinity _ | S754_nan => false
  end.

(** The exact value of a finite float as a fraction [n / d], [d > 0]. *)
Definition fraction (f : spec_float) : Z * Z :=
  match f with
  | S754_finite s m e =>
      let n := if (0 <=? e)%Z then Z.pos m * 2 ^ e else Z.pos m in
      let d := if (0 <=? e)%Z then 1 else 2 ^ (- e) in
      (if s then - n else n, d)
  | _ => (0, 1)
  end.

(** [s[:n]] for a string [s] and [n >= 0]. *)
Fixpoint slice_to (n : nat) (s : string) : string :=
  match n, s with
  | O, _ => EmptyString
  | S _, EmptyString => EmptyString
  | S n', String c s' => String c (slice_to n' s')
  end.

(** [s.encode()]: the bytes of the UTF-8 representation, as integers. *)
Fixpoint encode (s : string) : list Z :=
  match s with
  | EmptyString => []
  | String c s' => Z.of_N (N_of_ascii c) :: encode s'
  end.

End Py.

(* ===================================================================== *)
(** ** hashlib.sha256 (FIPS 180-4), on 32-bit words held in [Z]           *)
(* ===================================================================== *)

Module Sha256.

Definition wrap32 (x : Z) : Z := x mod 2 ^ 32.
Definition add32 (x y : Z) : Z := wrap32 (x + y).
Definition not32 (x : Z) : Z := Z.lxor x 0xffffffff.
Definition rotr (n x : Z) : Z :=
  Z.lor (Z.shiftr x n) (wrap32 (Z.shiftl x (32 - n))).

Definition ch (x y z : Z) : Z := Z.lxor (Z.land x y) (Z.land (not32 x) z).
Definition maj (x y z : Z) : Z :=
  Z.lxor (Z.lxor (Z.land x y) (Z.land x z)) (Z.land y z).
Definition bsig0 (x : Z) : Z := Z.lxor (Z.lxor (rotr 2 x) (rotr 13 x)) (rotr 22 x).
Definition bsig1 (x : Z) : Z := Z.lxor (Z.lxor (rotr 6 x) (rotr 11 x)) (rotr 25 x).
Definition ssig0 (x : Z) : Z := Z.lxor (Z.lxor (rotr 7 x) (rotr 18 x)) (Z.shiftr x 3).
Definition ssig1 (x : Z) : Z := Z.lxor (Z.lxor (rotr 17 x) (rotr 19 x)) (Z.shiftr x 10).

(** The round constants and the initial hash value are defined from the
    first primes: the first 32 bits of the fractional parts of their
    cube roots and of their square roots. *)
Definition primes : list Z :=
  [ 2; 3; 5; 7; 11; 13; 17; 19; 23; 29; 31; 37; 41; 43; 47; 53; 59; 61; 67; 71;
    73; 79; 83; 89; 97; 101; 103; 107; 109; 113; 127; 131; 137; 139; 149; 151;
    157; 163; 167; 173; 179; 181; 191; 193; 197; 199; 211; 223; 227; 229; 233;
    239; 241; 251; 257; 263; 269; 271; 277; 281; 283; 293; 307; 311 ].

(** The integer cube root of [n < 2 ^ (3 * bits)], one bit at a time. *)
Fixpoint cube_root (bits : nat) (n acc : Z) : Z :=
  match bits with
  | O => acc
  | S b =>
      let c := acc + 2 ^ Z.of_nat b in
      cube_root b n (if (c * c * c <=? n)%Z then c else acc)
  end.

Definition K : list Z :=
  Eval vm_compute in map (fun p => wrap32 (cube_root 36 (p * 2 ^ 96) 0)) primes.

(** The eight working words. *)
Record regs : Type := Regs { ra : Z; rb : Z; rc : Z; rd : Z; re : Z; rf : Z; rg : Z; rh : Z }.

Definition frac_sqrt (p : Z) : Z := wrap32 (Z.sqrt (p * 2 ^ 64)).

Definition initial : regs :=
  Eval vm_compute in
    Regs (frac_sqrt 2) (frac_sqrt 3) (frac_sqrt 5) (frac_sqrt 7)
         (frac_sqrt 11) (frac_sqrt 13) (frac_sqrt 17) (frac_sqrt 19).

(** Padding: a 1 bit, zeros up to 56 mod 64 bytes, the bit length on 64 bits. *)
Definition be_bytes (n : nat) (x : Z) : list Z :=
  map (fun i => Z.land (Z.shiftr x (8 * Z.of_nat i)) 0xff) (rev (seq 0 n)).

Definition pad (msg : list Z) : list Z :=
  let len := Z.of_nat (length msg) in
  msg ++ [0x80] ++ repeat 0 (Z.to_nat ((55 - len) mod 64)) ++ be_bytes 8 (8 * len).

(** Big-endian words of a byte sequence (a trailing partial word is dropped;
    [pad] never leaves one). *)
Fixpoint words (bs : list Z) : list Z :=
  match bs with
  | b0 :: b1 :: b2 :: b3 :: rest =>
      (((b0 * 256 + b1) * 256 + b2) * 256 + b3) :: words rest
  | _ => []
  end.

(** The message schedule, newest word first: [extend k w] appends [k] words. *)
Fixpoint extend (k : nat) (w : list Z) : list Z :=
  match k with
  | O => w
  | S k' =>
      let x := add32 (add32 (ssig1 (nth 1 w 0)) (nth 6 w 0))
                     (add32 (ssig0 (nth 14 w 0)) (nth 15 w 0)) in
      extend k' (x :: w)
  end.

Definition schedule (block : list Z) : list Z := rev (extend 48 (rev block)).

Definition round (r : regs) (kw : Z * Z) : regs :=
  let t1 := add32 (add32 (add32 (rh r) (bsig1 (re r))) (add32 (ch (re r) (rf r) (rg r)) kw.1)) kw.2 in
  let t2 := add32 (bsig0 (ra r)) (maj (ra r) (rb r) (rc r)) in
  Regs (add32 t1 t2) (ra r) (rb r) (rc r) (add32 (rd r) t1) (re r) (rf r) (rg r).

Definition compress (h : regs) (block : list Z) : regs :=
  let r := fold_left round (combine K (schedule block)) h in
  Regs (add32 (ra h) (ra r)) (add32 (rb h) (rb r)) (add32 (rc h) (rc r))
       (add32 (rd h) (rd r)) (add32 (re h) (re r)) (add32 (rf h) (rf r))
       (add32 (rg h) (rg r)) (add32 (rh h) (rh r)).

(** Blocks of 16 words; [fuel] bounds the number of blocks. *)
Fixpoint absorb (fuel : nat) (h : regs) (ws : list Z) : regs :=
  match fuel, ws with
  | S fuel', _ :: _ => absorb fuel' (compress h (firstn 16 ws)) (skipn 16 ws)
  | _, _ => h
  end.

Definition final (msg : list Z) : regs :=
  let ws := words (pad msg) in absorb (length ws) initial ws.

(** [sha256(msg).digest()]: 32 bytes. *)
Definition digest (msg : list Z) : list Z :=
  let r := final msg in
  be_bytes 4 (ra r) ++ be_bytes 4 (rb r) ++ be_bytes 4 (rc r) ++ be_bytes 4 (rd r) ++
  be_bytes 4 (re r) ++ be_bytes 4 (rf r) ++ be_bytes 4 (rg r) ++ be_bytes 4 (rh r).

Definition hexdigit (n : Z) : ascii :=
  nth (Z.to_nat n) (list_ascii_of_string "0123456789abcdef") "0"%char.

Fixpoint hex (bs : list Z) : string :=
  match bs with
  | [] => EmptyString
  | b :: rest =>
      String (hexdigit (Z.land (Z.shiftr b 4) 15)) (String (hexdigit (Z.land b 15)) (hex rest))
  end.

(** [sha256(msg).hexdigest()]: 64 lower-case hexadecimal characters. *)
Definition hexdigest (msg : list Z) : string := hex (digest msg).

End Sha256.

(* ===================================================================== *)
(** ** The process state and the monad of Python statements              *)
(* ===================================================================== *)

(** Records of the [logging] module: a level and the message, kept as its
    template and arguments. *)
Module Log.

Inductive level : Type := INFO | WARNING | ERROR.

Inductive message : Type :=
| RequestFailed (status_message : string) (code : Z)          (* line 38 *)
| GrpcError (code details : string)                           (* line 42 *)
| LocationRequestFailed (status_message : string) (code : Z)  (* line 54 *)
| StartingDriver (id : string)                                (* line 70 *)
| UpdatedPosition (lat lon alt : spec_float)                  (* line 123 *)
| NoFix                                                       (* line 126 *)
| ServiceStarted.                                             (* line 139 *)

Record record : Type := Record { lvl : level; msg : message }.

End Log.

(** A Python closure handed to a library as a callback. The source builds
    one: [lambda p, v, key=custom_name_key:
           self._handle_writable_setting_change(key, p, v)] (line 103). *)
Inductive closure : Type :=
| LambdaWritableSetting (key : string).

(** The methods of class [DbusService] (lines 64-126). *)
Inductive method : Type := M_init | M_setup_settings | M_refresh.

(** One exported path of a [VeDbusService]. *)
Record item : Type := Item {
  value : Py.value;
  writeable : bool;
  onchangecallback : option closure
}.

(** The [VeDbusService] object: its bus name, whether the name has been
    registered on the bus, and its paths. *)
Record VeDbusService : Type := MkVeDbusService {
  name : string;
  registered : bool;
  paths : gmap string item
}.

(** The [SettingsDevice] object: the setting names with their paths in
    the settings service, the cached values, and the event callback. *)
Record SettingsDevice : Type := MkSettingsDevice {
  setting_paths : gmap string string;
  values : gmap string string;
  eventCallback : option closure
}.

(** The one bound method the program hands to GLib: [service.refresh]
    (line 137). *)
Inductive bound : Type := ServiceRefresh.

(** A GLib timeout source: the interval in milliseconds, the time of its
    next expiry, and the function to call. *)
Record timeout : Type := Timeout { interval : Z; due : Z; callback : bound }.

(** The state of the process and of what it talks to:
    the log, the one [VeDbusService] and [SettingsDevice] objects once
    they are constructed, the persisted values of the settings service
    with the number of value writes it has served, the time in
    milliseconds since the process started, and the timeout sources
    attached to the main loop. *)
Record World : Type := MkWorld {
  log : list Log.record;
  dbusservice : option VeDbusService;
  settings : option SettingsDevice;
  localsettings : gmap string string;
  localsettings_writes : nat;
  clock : Z;
  timeouts : list timeout
}.

Definition set_log (f : list Log.record → list Log.record) (w : World) : World :=
  MkWorld (f (log w)) (dbusservice w) (settings w) (localsettings w)
          (localsettings_writes w) (clock w) (timeouts w).
Definition set_dbusservice (s : option VeDbusService) (w : World) : World :=
  MkWorld (log w) s (settings w) (localsettings w) (localsettings_writes w)
          (clock w) (timeouts w).
Definition set_settings (s : option SettingsDevice) (w : World) : World :=
  MkWorld (log w) (dbusservice w) s (localsettings w) (localsettings_writes w)
          (clock w) (timeouts w).
Definition set_localsettings (m : gmap string string) (n : nat) (w : World) : World :=
  MkWorld (log w) (dbusservice w) (settings w) m n (clock w) (timeouts w).
Definition set_clock (t : Z) (w : World) : World :=
  MkWorld (log w) (dbusservice w) (settings w) (localsettings w) (localsettings_writes w)
          t (timeouts w).
Definition set_timeouts (l : list timeout) (w : World) : World :=
  MkWorld (log w) (dbusservice w) (settings w) (localsettings w) (localsettings_writes w)
          (clock w) l.

(** A fresh process: nothing logged, no object constructed, no timer. *)
Definition boot (persisted : gmap string string) : World :=
  MkWorld [] None None persisted 0 0 [].

(** Statements: a result or a raised exception, and the state reached. *)
Definition M (A : Type) : Type := World → (Py.exn + A) * World.

Definition ret {A} (a : A) : M A := fun w => (inr a, w).
Definition raise {A} (e : Py.exn) : M A := fun w => (inl e, w).
Definition bind {A B} (c : M A) (k : A → M B) : M B :=
  fun w => match c w with
           | (inr a, w') => k a w'
           | (inl e, w') => (inl e, w')
           end.
Definition get : M World := fun w => (inr w, w).
Definition modify (f : World → World) : M unit := fun w => (inr tt, f w).

Notation "'let*' x ':=' c 'in' k" := (bind c (fun x => k))
  (at level 10, x name, c at level 100, k at level 200).
Notation "c '>>>' k" := (bind c (fun _ => k))
  (at level 190, right associativity).

(** The state with one more log record. *)
Definition logged (l : Log.level) (m : Log.message) (w : World) : World :=
  set_log (fun rs => (rs ++ [Log.Record l m])%list) w.

Definition logging (l : Log.level) (m : Log.message) : M unit :=
  modify (logged l m).

(* ===================================================================== *)
(** ** The remote procedure interface (dishy_pb2)                        *)
(* ===================================================================== *)

(** Messages are held by what reading their fields gives: an unset
    sub-message reads as its default instance, and a field with presence
    ([HasField]) is an [option]. *)
Module Pb.

Record Status : Type := MkStatus { code : Z; message : string }.

Record DeviceInfo : Type := MkDeviceInfo {
  id : string;
  software_version : option string;
  hardware_version : option string
}.

Record LLA : Type := MkLLA { lat : spec_float; lon : spec_float; alt : spec_float }.

Record Location : Type := MkLocation { lla : option LLA }.

Record Response : Type := MkResponse {
  status : Status;
  get_device_info : DeviceInfo;    (* [r.get_device_info.device_info] *)
  location : Location
}.

End Pb.

(** What [self.stub.Handle(request, timeout=self.timeout)] does: it
    returns a response, or raises [grpc.RpcError] (channel unreachable,
    deadline of 10 seconds exceeded). *)
Inductive rpc : Type :=
| Returns (r : Pb.Response)
| Fails (code details : string).

(** The dict returned by [get_position]: three keys, each a float or [None]. *)
Record Position : Type := MkPosition {
  latitude : option spec_float;
  longitude : option spec_float;
  altitude : option spec_float
}.

(* ===================================================================== *)
(** ** class Dishy                                                       *)
(* ===================================================================== *)

Module Dishy.

(** Lines 33-43. The result is the response, or [None]. *)
Definition _make_request (handle : rpc) : M (option Pb.Response) :=
  match handle with
  | Returns response =>
      if negb (Pb.code (Pb.status response) =? 0)%Z then
        logging Log.WARNING
          (Log.RequestFailed (Pb.message (Pb.status response)) (Pb.code (Pb.status response))) >>>
        ret None
      else ret (Some response)
  | Fails c d =>
      logging Log.ERROR (Log.GrpcError c d) >>>
      raise (Py.RpcError c d)
  end.

(** Lines 45-47. Reading an attribute of [None] raises. *)
Definition get_device_info (handle : rpc) : M Pb.DeviceInfo :=
  let* r := _make_request handle in
  match r with
  | None => raise (Py.AttributeError "NoneType" "get_device_info")
  | Some r => ret (Pb.get_device_info r)
  end.

(** Lines 50-62. *)
Definition get_position (handle : rpc) : M Position :=
  let* r := _make_request handle in
  match r with
  | None => raise (Py.AttributeError "NoneType" "status")
  | Some r =>
      if negb (Pb.code (Pb.status r) =? 0)%Z then
        logging Log.WARNING
          (Log.LocationRequestFailed (Pb.message (Pb.status r)) (Pb.code (Pb.status r))) >>>
        ret (MkPosition None None None)
      else
        let location := Pb.location r in
        ret (MkPosition
               (match Pb.lla location with Some l => Some (Pb.lat l) | None => None end)
               (match Pb.lla location with Some l => Some (Pb.lon l) | None => None end)
               (match Pb.lla location with Some l => Some (Pb.alt l) | None => None end))
  end.

End Dishy.

(* ===================================================================== *)
(** ** The libraries the publisher drives (velib_python, GLib)           *)
(* ===================================================================== *)

(** [vedbus.VeDbusService], as far as the program uses it. Before the
    object is constructed there is no attribute [_dbusservice] to use. *)
Module VeDbus.

Definition no_service {A} : M A := raise (Py.AttributeError "DbusService" "_dbusservice").

(** [VeDbusService(servicename, register=False)]. *)
Definition new (servicename : string) : M unit :=
  modify (set_dbusservice (Some (MkVeDbusService servicename false ∅))).

(** [add_path(path, value, writeable=..., onchangecallback=...)]. *)
Definition add_path (path : string) (v : Py.value) (w : bool) (cb : option closure) : M unit :=
  let* st := get in
  match dbusservice st with
  | None => no_service
  | Some s =>
      modify (set_dbusservice
                (Some (MkVeDbusService (name s) (registered s) (<[path := Item v w cb]> (paths s)))))
  end.

(** [register()]: from here on the name and its paths are on the bus. *)
Definition register : M unit :=
  let* st := get in
  match dbusservice st with
  | None => no_service
  | Some s => modify (set_dbusservice (Some (MkVeDbusService (name s) true (paths s))))
  end.

(** [service[path] = v]: the path must have been added. *)
Definition setitem (path : string) (v : Py.value) : M unit :=
  let* st := get in
  match dbusservice st with
  | None => no_service
  | Some s =>
      match paths s !! path with
      | None => raise (Py.KeyError path)
      | Some it =>
          modify (set_dbusservice
                    (Some (MkVeDbusService (name s) (registered s)
                             (<[path := Item v (writeable it) (onchangecallback it)]> (paths s)))))
      end
  end.

End VeDbus.

(** The value published under a path, if any. *)
Definition published (w : World) (path : string) : option Py.value :=
  match dbusservice w with
  | Some s => match paths s !! path with Some it => Some (value it) | None => None end
  | None => None
  end.

(** The four telemetry attributes: fix, latitude, longitude, altitude. *)
Definition telemetry (w : World) : list (option Py.value) :=
  [ published w "/Fix"; published w "/Position/Latitude";
    published w "/Position/Longitude"; published w "/Position/Altitude" ].

(** A tree is visible to other bus clients once its service is registered. *)
Definition externally_visible (w : World) : bool :=
  match dbusservice w with Some s => registered s | None => false end.

(** [settingsdevice.SettingsDevice], as far as the program uses it. *)
Module Settings.

(** One entry of [supported_settings]: [[path, default, min, max]]. *)
Record spec : Type := Spec { path : string; default : string; minimum : Z; maximum : Z }.

(** [addSetting]: the settings service creates the setting with its
    default when it does not exist yet; the device caches the value
    the service holds. *)
Definition addSetting (setting : string) (sp : spec) (acc : SettingsDevice * gmap string string)
  : SettingsDevice * gmap string string :=
  let store := match acc.2 !! path sp with
               | Some _ => acc.2
               | None => <[path sp := default sp]> acc.2
               end in
  let current := match store !! path sp with Some v => v | None => default sp end in
  (MkSettingsDevice (<[setting := path sp]> (setting_paths acc.1))
                    (<[setting := current]> (values acc.1))
                    (eventCallback acc.1),
   store).

(** [SettingsDevice(bus, supportedSettings, eventCallback)]. *)
Definition new (supported : list (string * spec)) (cb : option closure) : M unit :=
  let* st := get in
  let r := fold_left (fun acc e => addSetting e.1 e.2 acc) supported
                     (MkSettingsDevice ∅ ∅ cb, localsettings st) in
  modify (set_settings (Some r.1)) >>>
  modify (set_localsettings r.2 (localsettings_writes st)).

(** [settings[setting]]. *)
Definition getitem (setting : string) : M string :=
  let* st := get in
  match settings st with
  | None => raise (Py.AttributeError "DbusService" "_settings")
  | Some d =>
      match values d !! setting with
      | Some v => ret v
      | None => raise (Py.KeyError setting)
      end
  end.

End Settings.

(* ===================================================================== *)
(** ** class DbusService                                                 *)
(* ===================================================================== *)

Module DbusService.

(** The attributes of [self] that are plain values; [_dbusservice] and
    [_settings] are the objects held in the [World]. *)
Record self : Type := Self {
  dishy_target : string;
  id : string;
  servicename : string
}.

(** Line 68: [sha256(info.id.encode()).hexdigest()[:8]]. *)
Definition short_id (device_id : string) : string :=
  Py.slice_to 8 (Sha256.hexdigest (Py.encode device_id)).

(** Line 72. *)
Definition service_name (sid : string) : string :=
  "com.victronenergy.gps.starlink_" ++ sid.

(** Line 110 and the path of line 112. *)
Definition settings_path_prefix (sid : string) : string :=
  "/Settings/Devices/starlink_" ++ sid.
Definition custom_name_path (sid : string) : string :=
  settings_path_prefix sid ++ "/CustomName".

(** Lines 109-114. *)
Definition _setup_settings (sid : string) : M unit :=
  let supported_settings :=
    [ ("CustomName", Settings.Spec (custom_name_path sid) "Starlink" 0 0) ] in
  Settings.new supported_settings None.

(** The methods the class defines, by name. *)
Definition class_dict : list (string * method) :=
  [ ("__init__", M_init); ("_setup_settings", M_setup_settings); ("refresh", M_refresh) ].

Fixpoint getattr (attr : string) (d : list (string * method)) : option method :=
  match d with
  | [] => None
  | (n, m) :: rest => if String.eqb n attr then Some m else getattr attr rest
  end.

(** Calling a closure. The body of the lambda of line 103 looks up
    [self._handle_writable_setting_change] and calls it with three
    arguments; every method of the class takes fewer. *)
Definition call_closure (c : closure) (args : list Py.value) : M Py.retval :=
  match c with
  | LambdaWritableSetting key =>
      match args with
      | [_; _] | [_; _; _] =>
          match getattr "_handle_writable_setting_change" class_dict with
          | None => raise (Py.AttributeError "DbusService" "_handle_writable_setting_change")
          | Some _ => raise (Py.TypeError "takes fewer positional arguments")
          end
      | _ => raise (Py.TypeError "<lambda>() missing or extra positional arguments")
      end
  end.

(** [int(location["altitude"])]. *)
Definition int (x : option spec_float) : M Z :=
  match x with
  | None => raise (Py.TypeError "int() argument must be a string or a real number, not 'NoneType'")
  | Some f => match Py.int_of_float f with inl e => raise e | inr z => ret z end
  end.

(** Lines 118-126: what [refresh] does with the position it obtained.
    The body has no [return]: the call gives [None]. *)
Definition publish (location : Position) : M Py.retval :=
  match latitude location, longitude location with
  | Some la, Some lo =>
      VeDbus.setitem "/Fix" (Py.VInt 1) >>>
      VeDbus.setitem "/Position/Latitude" (Py.VFloat la) >>>
      VeDbus.setitem "/Position/Longitude" (Py.VFloat lo) >>>
      let* a := int (altitude location) in
      VeDbus.setitem "/Position/Altitude" (Py.VInt a) >>>
      logging Log.INFO
        (Log.UpdatedPosition la lo (match altitude location with Some al => al | None => S754_nan end)) >>>
      ret Py.RNone
  | _, _ =>
      VeDbus.setitem "/Fix" (Py.VInt 0) >>>
      logging Log.INFO Log.NoFix >>>
      ret Py.RNone
  end.

(** Lines 116-126. *)
Definition refresh (handle : rpc) : M Py.retval :=
  let* location := Dishy.get_position handle in
  publish location.

Definition na (v : option string) : string :=
  match v with Some s => s | None => "N/A" end.

(** Lines 65-107. [VERSION] is the content of the version file (line 21);
    [info_call] and [location_call] are what the two requests made
    during construction meet. *)
Definition __init__ (VERSION target : string) (info_call location_call : rpc) : M self :=
  let* info := Dishy.get_device_info info_call in
  let sid := short_id (Pb.id info) in
  logging Log.INFO (Log.StartingDriver sid) >>>
  let servicename := service_name sid in
  VeDbus.new servicename >>>
  VeDbus.add_path "/Management/ProcessName" (Py.VStr "dbus-starlink") false None >>>
  VeDbus.add_path "/Management/ProcessVersion" (Py.VStr VERSION) false None >>>
  VeDbus.add_path "/Management/Connection" (Py.VStr "gRPC") false None >>>
  VeDbus.add_path "/DeviceInstance" (Py.VInt 1) false None >>>
  VeDbus.add_path "/ProductId" (Py.VInt 45108) false None >>>
  VeDbus.add_path "/ProductName" (Py.VStr "Starlink") false None >>>
  VeDbus.add_path "/FirmwareVersion" (Py.VStr (na (Pb.software_version info))) false None >>>
  VeDbus.add_path "/HardwareVersion" (Py.VStr (na (Pb.hardware_version info))) false None >>>
  VeDbus.add_path "/Connected" (Py.VInt 1) false None >>>
  VeDbus.add_path "/Serial" (Py.VStr (Pb.id info)) false None >>>
  VeDbus.add_path "/State" (Py.VInt 0x100) false None >>>
  VeDbus.add_path "/Fix" (Py.VInt 0) false None >>>
  VeDbus.add_path "/Position/Latitude" (Py.VFloat (S754_zero false)) false None >>>
  VeDbus.add_path "/Position/Longitude" (Py.VFloat (S754_zero false)) false None >>>
  VeDbus.add_path "/Position/Altitude" (Py.VFloat (S754_zero false)) false None >>>
  _setup_settings sid >>>
  let custom_name_key := "CustomName" in
  let* v := Settings.getitem custom_name_key in
  VeDbus.add_path "/CustomName" (Py.VStr v) true (Some (LambdaWritableSetting custom_name_key)) >>>
  VeDbus.register >>>
  refresh location_call >>>
  ret (Self target sid servicename).

End DbusService.

(* ===================================================================== *)
(** ** What reaches the publisher from outside                           *)
(* ===================================================================== *)

(** [a == b] on published values: exact comparison of numbers, NaN
    differs from everything. *)
Definition py_eq (a b : Py.value) : bool :=
  match a, b with
  | Py.VStr x, Py.VStr y => String.eqb x y
  | Py.VInt x, Py.VInt y => (x =? y)%Z
  | Py.VFloat x, Py.VFloat y => SFeqb x y
  | Py.VInt x, Py.VFloat y | Py.VFloat y, Py.VInt x =>
      Py.is_finite y && (x * (Py.fraction y).2 =? (Py.fraction y).1)%Z
  | _, _ => false
  end.

(** A bus client sets a published path ([VeDbusItemExport.SetValue] of
    velib_python): refused (1) when the path is not writeable, accepted
    (0) without more when the value is the current one; otherwise the
    change callback decides: the value is stored when there is no
    callback or the callback returns a true value (0), and refused (2)
    when it does not. An exception of the callback leaves the call. *)
Definition bus_SetValue (path : string) (newvalue : Py.value) : M Z :=
  let* st := get in
  match dbusservice st with
  | None => raise (Py.KeyError path)
  | Some s =>
      match paths s !! path with
      | None => raise (Py.KeyError path)
      | Some it =>
          if negb (writeable it) then ret 1
          else if py_eq newvalue (value it) then ret 0
          else
            let* ok := match onchangecallback it with
                       | None => ret true
                       | Some c =>
                           let* r := DbusService.call_closure c [Py.VStr path; newvalue] in
                           ret (Py.truthy r)
                       end in
            if ok then VeDbus.setitem path newvalue >>> ret 0 else ret 2
      end
  end.

(** [SettingsDevice.handleChangedSetting]: the cached value follows the
    settings service; the event callback is called when there is one. *)
Definition handleChangedSetting (setting newvalue : string) : M unit :=
  let* st := get in
  match settings st with
  | None => ret tt
  | Some d =>
      let oldvalue := values d !! setting in
      modify (set_settings
                (Some (MkSettingsDevice (setting_paths d) (<[setting := newvalue]> (values d))
                                        (eventCallback d)))) >>>
      match eventCallback d with
      | None => ret tt
      | Some c =>
          DbusService.call_closure c
            [Py.VStr setting; Py.VStr (default "" oldvalue); Py.VStr newvalue] >>>
          ret tt
      end
  end.

(** Another client changes a setting in the settings service: the
    service persists the value (one write) and signals the change to the
    [SettingsDevice] that watches the path. *)
Definition settings_changed_externally (setting newvalue : string) : M unit :=
  let* st := get in
  match settings st with
  | None => ret tt
  | Some d =>
      match setting_paths d !! setting with
      | None => ret tt
      | Some p =>
          modify (set_localsettings (<[p := newvalue]> (localsettings st))
                                    (S (localsettings_writes st))) >>>
          handleChangedSetting setting newvalue
      end
  end.

(* ===================================================================== *)
(** ** main and the GLib main loop                                       *)
(* ===================================================================== *)

Module GLib.

(** [GLib.timeout_add(interval, function)]: the first expiry is one
    interval from now. *)
Definition timeout_add (ms : Z) (f : bound) : M unit :=
  let* st := get in
  modify (set_timeouts (timeouts st ++ [Timeout ms (clock st + ms) f])%list).

Definition call (f : bound) (handle : rpc) : M Py.retval :=
  match f with ServiceRefresh => DbusService.refresh handle end.

(** The source that expires first, and the others. *)
Fixpoint next (l : list timeout) : option (timeout * list timeout) :=
  match l with
  | [] => None
  | t :: rest =>
      match next rest with
      | None => Some (t, [])
      | Some (u, rest') =>
          if (due t <=? due u)%Z then Some (t, rest) else Some (u, t :: rest')
      end
  end.

(** One iteration of [mainloop.run()]: wait for the next expiry and
    call its function. GLib calls a timeout function repeatedly until
    it returns False, at which point the source is destroyed; the
    Python result is taken by its truth value, and a callback that
    raises counts as False. [handle] is what a request sent during
    the call meets. The result is the time of the call, or [None]
    when no source is left and the loop sleeps for good. *)
Definition iteration (handle : rpc) (w : World) : option Z * World :=
  match next (timeouts w) with
  | None => (None, w)
  | Some (t, others) =>
      let now := Z.max (clock w) (due t) in
      let '(r, w') := call (callback t) handle (set_clock now w) in
      let again := match r with inr v => Py.truthy v | inl _ => false end in
      (Some now,
       set_timeouts (if again
                     then (others ++ [Timeout (interval t) (now + interval t) (callback t)])%list
                     else others) w')
  end.

(** Successive iterations; the times at which a function was called. *)
Fixpoint run (handles : list rpc) (w : World) : list Z * World :=
  match handles with
  | [] => ([], w)
  | h :: rest =>
      let '(t, w') := iteration h w in
      let '(ts, w'') := run rest w' in
      (match t with Some x => x :: ts | None => ts end, w'')
  end.

End GLib.

(** Lines 128-140, up to the call of [mainloop.run()]. *)
Definition main (VERSION : string) (info_call location_call : rpc) : M DbusService.self :=
  let* service := DbusService.__init__ VERSION "192.168.100.1:9200" info_call location_call in
  GLib.timeout_add 60000 ServiceRefresh >>>
  logging Log.INFO Log.ServiceStarted >>>
  ret service.

(** The publisher is [Running] once [main] has reached the main loop;
    an exception before that ends the process. *)
Inductive process : Type :=
| Aborted (e : Py.exn) (w : World)
| Running (service : DbusService.self) (w : World).

Definition start (VERSION : string) (persisted : gmap string string)
    (info_call location_call : rpc) : process :=
  match main VERSION info_call location_call (boot persisted) with
  | (inl e, w) => Aborted e w
  | (inr s, w) => Running s w
  end.

Definition world_of (p : process) : World :=
  match p with Aborted _ w | Running _ w => w end.

(* ===================================================================== *)
(** ** Notions used to state the properties                              *)
(* ===================================================================== *)

(** The dict built at lines 58-62. *)
Definition position_of (l : Pb.Location) : Position :=
  MkPosition (match Pb.lla l with Some x => Some (Pb.lat x) | None => None end)
             (match Pb.lla l with Some x => Some (Pb.lon x) | None => None end)
             (match Pb.lla l with Some x => Some (Pb.alt x) | None => None end).

(** When the device-info request does not give a response with status 0,
    [get_device_info] raises and constructs nothing. *)
Definition fetch_fails (call : rpc) : Prop :=
  match call with
  | Fails _ _ => True
  | Returns r => Pb.code (Pb.status r) ≠ 0
  end.

(** Every position that [get_position] returns has its three fields all
    present or all absent. *)
Definition all_or_none (p : Position) : Prop :=
  (is_Some (latitude p) ∧ is_Some (longitude p) ∧ is_Some (altitude p))
  ∨ (latitude p = None ∧ longitude p = None ∧ altitude p = None).


(** The service after [service[p] = v] for a path that exists: the item
    keeps its flags and gets the value. *)
Definition store (p : string) (v : Py.value) (s : VeDbusService) : VeDbusService :=
  MkVeDbusService (name s) (registered s)
    (alter (fun it => Item v (writeable it) (onchangecallback it)) p (paths s)).

Definition stored (p : string) (v : Py.value) (w : World) : World :=
  set_dbusservice (store p v <$> dbusservice w) w.

Definition telemetry_paths : list string :=
  [ "/Fix"; "/Position/Latitude"; "/Position/Longitude"; "/Position/Altitude" ].

(** The state of a publisher whose tree has been created: the four
    telemetry paths exist. *)
Definition has_telemetry (w : World) : Prop :=
  Forall (fun p => is_Some (published w p)) telemetry_paths.

(** Truncation toward zero of the exact value of a finite float. *)
Definition trunc (f : spec_float) : Z :=
  Z.quot (Py.fraction f).1 (Py.fraction f).2.

(** What a refresh leaves alone: the settings object, the settings
    service, the clock and the timers, and the name, the registration
    and the set of paths of the published service. *)
Definition service_kept (o o' : option VeDbusService) : Prop :=
  match o, o' with
  | Some s, Some s' =>
      name s' = name s ∧ registered s' = registered s
      ∧ ∀ p, is_Some (paths s' !! p) ↔ is_Some (paths s !! p)
  | None, None => True
  | _, _ => False
  end.

Definition same_frame (w w' : World) : Prop :=
  settings w' = settings w ∧ localsettings w' = localsettings w
  ∧ localsettings_writes w' = localsettings_writes w
  ∧ clock w' = clock w ∧ timeouts w' = timeouts w
  ∧ service_kept (dbusservice w) (dbusservice w').

Definition framed {A} (c : M A) : Prop := ∀ w, same_frame w (c w).2.

(** The states a publisher goes through once the main loop is entered:
    the state at startup, and the states after a refresh against any
    answer of the dish. *)
Inductive reachable : World → Prop :=
| reach_start VERSION persisted info_call location_call service w :
    start VERSION persisted info_call location_call = Running service w → reachable w
| reach_refresh call w :
    reachable w → reachable (DbusService.refresh call w).2.

(** The state in which [__init__] reaches its last statement, the call
    of [refresh] at line 107, when the device answered the device-info
    request with [r]: the tree is complete and registered, the custom
    name is the persisted one, or the default when none was persisted. *)
Definition persisted_after (sid : string) (persisted : gmap string string) : gmap string string :=
  match persisted !! DbusService.custom_name_path sid with
  | Some _ => persisted
  | None => <[DbusService.custom_name_path sid := "Starlink"]> persisted
  end.

Definition custom_name_of (sid : string) (persisted : gmap string string) : string :=
  match persisted_after sid persisted !! DbusService.custom_name_path sid with
  | Some v => v
  | None => "Starlink"
  end.

Definition created_tree (VERSION : string) (info : Pb.DeviceInfo) (custom_name : string)
  : gmap string item :=
  <["/CustomName" := Item (Py.VStr custom_name) true (Some (LambdaWritableSetting "CustomName"))]>
  (<["/Position/Altitude" := Item (Py.VFloat (S754_zero false)) false None]>
  (<["/Position/Longitude" := Item (Py.VFloat (S754_zero false)) false None]>
  (<["/Position/Latitude" := Item (Py.VFloat (S754_zero false)) false None]>
  (<["/Fix" := Item (Py.VInt 0) false None]>
  (<["/State" := Item (Py.VInt 256) false None]>
  (<["/Serial" := Item (Py.VStr (Pb.id info)) false None]>
  (<["/Connected" := Item (Py.VInt 1) false None]>
  (<["/HardwareVersion" := Item (Py.VStr (DbusService.na (Pb.hardware_version info))) false None]>
  (<["/FirmwareVersion" := Item (Py.VStr (DbusService.na (Pb.software_version info))) false None]>
  (<["/ProductName" := Item (Py.VStr "Starlink") false None]>
  (<["/ProductId" := Item (Py.VInt 45108) false None]>
  (<["/DeviceInstance" := Item (Py.VInt 1) false None]>
  (<["/Management/Connection" := Item (Py.VStr "gRPC") false None]>
  (<["/Management/ProcessVersion" := Item (Py.VStr VERSION) false None]>
  (<["/Management/ProcessName" := Item (Py.VStr "dbus-starlink") false None]> ∅))))))))))))))).

Definition created (VERSION : string) (r : Pb.Response) (persisted : gmap string string) : World :=
  let info := Pb.get_device_info r in
  let sid := DbusService.short_id (Pb.id info) in
  MkWorld [Log.Record Log.INFO (Log.StartingDriver sid)]
          (Some (MkVeDbusService (DbusService.service_name sid) true
                   (created_tree VERSION info (custom_name_of sid persisted))))
          (Some (MkSettingsDevice (<["CustomName" := DbusService.custom_name_path sid]> ∅)
                                  (<["CustomName" := custom_name_of sid persisted]> ∅)
                                  None))
          (persisted_after sid persisted) 0 0 [].

(** The [self] that [__init__] builds for a device-info response. *)
Definition self_of (target : string) (r : Pb.Response) : DbusService.self :=
  let sid := DbusService.short_id (Pb.id (Pb.get_device_info r)) in
  DbusService.Self target sid (DbusService.service_name sid).

(** The characters of a hexadecimal writing in lower case. *)
Definition is_hex (c : ascii) : Prop :=
  In c (list_ascii_of_string "0123456789abcdef").

(** ** A dish used in the examples *)

Module Demo.

(** 47.6, -122.3, 15.7, 37.0, -122.0 and 10.0 as binary64 values. *)
Definition f47_6 : spec_float := S754_finite false 6699104445713613 (-47).
Definition fm122_3 : spec_float := S754_finite true 8606097412928307 (-46).
Definition f15_7 : spec_float := S754_finite false 8838314268714598 (-49).
Definition f37 : spec_float := S754_finite false 5207287069147136 (-47).
Definition fm122 : spec_float := S754_finite true 8584986789675008 (-46).
Definition f10 : spec_float := S754_finite false 5629499534213120 (-49).

Definition ok : Pb.Status := Pb.MkStatus 0 "".
Definition info : Pb.DeviceInfo := Pb.MkDeviceInfo "KU123456789" (Some "2024.05.1") None.
Definition no_info : Pb.DeviceInfo := Pb.MkDeviceInfo "" None None.

(** The answers of the dish: its device info, a location, another
    location, a response without location, a response with a non-zero
    status, a location whose altitude is an infinity. *)
Definition device_info : Pb.Response := Pb.MkResponse ok info (Pb.MkLocation None).
Definition at_47_6 : Pb.Response :=
  Pb.MkResponse ok no_info (Pb.MkLocation (Some (Pb.MkLLA f47_6 fm122_3 f15_7))).
Definition at_37 : Pb.Response :=
  Pb.MkResponse ok no_info (Pb.MkLocation (Some (Pb.MkLLA f37 fm122 f10))).
Definition no_location : Pb.Response := Pb.MkResponse ok no_info (Pb.MkLocation None).
Definition unavailable : Pb.Response :=
  Pb.MkResponse (Pb.MkStatus 14 "location disabled") no_info (Pb.MkLocation None).
Definition at_infinity : Pb.Response :=
  Pb.MkResponse ok no_info (Pb.MkLocation (Some (Pb.MkLLA f47_6 fm122_3 (S754_infinity false)))).

(** The process started against this dish, first seen at 37.0, -122.0. *)
Definition started : process := start "1.0" ∅ (Returns device_info) (Returns at_37).
Definition world : World := Eval vm_compute in world_of started.

End Demo.

(* ===================================================================== *)
(** ** Notions used by the further properties                            *)
(* ===================================================================== *)

(** The flags of a published path: whether it is writeable, and its
    change callback. *)
Definition flags (o : option item) : option (bool * option closure) :=
  (fun it => (writeable it, onchangecallback it)) <$> o.

(** A service that differs from another at most by the values of the
    telemetry paths. *)
Definition tree_kept (o o' : option VeDbusService) : Prop :=
  match o, o' with
  | Some s, Some s' =>
      name s' = name s ∧ registered s' = registered s
      ∧ ∀ p, flags (paths s' !! p) = flags (paths s !! p)
             ∧ (p ∉ telemetry_paths → paths s' !! p = paths s !! p)
  | None, None => True
  | _, _ => False
  end.

(** A settings object that differs from another at most by its cached
    values. *)
Definition settings_kept (o o' : option SettingsDevice) : Prop :=
  match o, o' with
  | Some d, Some d' =>
      eventCallback d' = eventCallback d ∧ setting_paths d' = setting_paths d
  | None, None => True
  | _, _ => False
  end.

Definition kept (w w' : World) : Prop :=
  tree_kept (dbusservice w) (dbusservice w') ∧ settings_kept (settings w) (settings w').

(** The states of a publisher that was started with a version string, a
    persisted store and a device-info response: the state in which the
    main loop is entered, and the states after an iteration of the main
    loop, a refresh, a write by a bus client and a change of a setting
    by another client. *)
Inductive runs (VERSION : string) (persisted : gmap string string) (r : Pb.Response)
  : World → Prop :=
| runs_start location_call service w :
    start VERSION persisted (Returns r) location_call = Running service w →
    runs VERSION persisted r w
| runs_iteration handle w :
    runs VERSION persisted r w → runs VERSION persisted r (GLib.iteration handle w).2
| runs_refresh call w :
    runs VERSION persisted r w → runs VERSION persisted r (DbusService.refresh call w).2
| runs_write path newvalue w :
    runs VERSION persisted r w → runs VERSION persisted r (bus_SetValue path newvalue w).2
| runs_setting setting newvalue w :
    runs VERSION persisted r w →
    runs VERSION persisted r (settings_changed_externally setting newvalue w).2.

(** The outcome of a refresh, by what the request met. *)
Inductive refreshed (w : World) : rpc → (Py.exn + Py.retval) * World → Prop :=
| refreshed_transport c d :
    refreshed w (Fails c d)
      (inl (Py.RpcError c d), logged Log.ERROR (Log.GrpcError c d) w)
| refreshed_status r :
    Pb.code (Pb.status r) ≠ 0 →
    refreshed w (Returns r)
      (inl (Py.AttributeError "NoneType" "status"),
       logged Log.WARNING
         (Log.RequestFailed (Pb.message (Pb.status r)) (Pb.code (Pb.status r))) w)
| refreshed_no_fix r :
    Pb.code (Pb.status r) = 0 → Pb.lla (Pb.location r) = None →
    refreshed w (Returns r)
      (inr Py.RNone, logged Log.INFO Log.NoFix (stored "/Fix" (Py.VInt 0) w))
| refreshed_fix r l :
    Pb.code (Pb.status r) = 0 → Pb.lla (Pb.location r) = Some l →
    Py.is_finite (Pb.alt l) = true →
    refreshed w (Returns r)
      (inr Py.RNone,
       logged Log.INFO (Log.UpdatedPosition (Pb.lat l) (Pb.lon l) (Pb.alt l))
         (stored "/Position/Altitude" (Py.VInt (trunc (Pb.alt l)))
            (stored "/Position/Longitude" (Py.VFloat (Pb.lon l))
               (stored "/Position/Latitude" (Py.VFloat (Pb.lat l))
                  (stored "/Fix" (Py.VInt 1) w)))))
| refreshed_partial r l e :
    Pb.code (Pb.status r) = 0 → Pb.lla (Pb.location r) = Some l →
    Py.int_of_float (Pb.alt l) = inl e →
    refreshed w (Returns r)
      (inl e,
       stored "/Position/Longitude" (Py.VFloat (Pb.lon l))
         (stored "/Position/Latitude" (Py.VFloat (Pb.lat l))
            (stored "/Fix" (Py.VInt 1) w))).

(** The calls of the construction with which a startup reaches the main
    loop: both requests return status 0, and a returned altitude is a
    finite number. *)
Definition startable (info_call location_call : rpc) : Prop :=
  match info_call, location_call with
  | Returns r, Returns rl =>
      Pb.code (Pb.status r) = 0 ∧ Pb.code (Pb.status rl) = 0
      ∧ match Pb.lla (Pb.location rl) with
        | Some l => Py.is_finite (Pb.alt l) = true
        | None => True
        end
  | _, _ => False
  end.

(** The types of the published telemetry: the fix flag is 0 or 1,
    latitude and longitude are floats, the altitude is the float 0.0 it
    was created with or an integer. *)
Definition well_typed (w : World) : Prop :=
  (published w "/Fix" = Some (Py.VInt 0) ∨ published w "/Fix" = Some (Py.VInt 1))
  ∧ (∃ x, published w "/Position/Latitude" = Some (Py.VFloat x))
  ∧ (∃ x, published w "/Position/Longitude" = Some (Py.VFloat x))
  ∧ (published w "/Position/Altitude" = Some (Py.VFloat (S754_zero false))
     ∨ ∃ z, published w "/Position/Altitude" = Some (Py.VInt z)).

(* ===================================================================== *)
(** * Properties                                                         *)
(* ===================================================================== *)

(** ** hashlib test vectors *)

Example sha256_constants :
  nth 0 Sha256.K 0 = 0x428a2f98 ∧ nth 63 Sha256.K 0 = 0xc67178f2
  ∧ length Sha256.K = 64%nat
  ∧ Sha256.ra Sha256.initial = 0x6a09e667 ∧ Sha256.rh Sha256.initial = 0x5be0cd19.
Proof. vm_compute. repeat split. Qed.

Example sha256_abc :
  Sha256.hexdigest (Py.encode "abc")
  = "ba7816bf8f01cfea414140de5dae2223b00361a396177a9cb410ff61f20015ad".
Proof. vm_compute. reflexivity. Qed.

Example sha256_empty :
  Sha256.hexdigest (Py.encode "")
  = "e3b0c44298fc1c149afbf4c8996fb92427ae41e4649b934ca495991b7852b855".
Proof. vm_compute. reflexivity. Qed.

Example sha256_two_blocks :
  Sha256.hexdigest (Py.encode "aaaaaaaaaaaaaaaaaaaaaaaaaaaaaaaaaaaaaaaaaaaaaaaaaaaaaaaaaaaaaaaa")
  = "ffe054fe7ae0cb6dc65c3af9b61d5209f439851db43d0ba5997337df154668eb".
Proof. vm_compute. reflexivity. Qed.

(** ** Running statements *)

Section Bind.
Context {A B : Type} (c : M A) (k : A → M B).

Lemma bind_returns w a w' : c w = (inr a, w') → bind c k w = k a w'.
Proof. intros E. unfold bind. now rewrite E. Qed.

Lemma bind_raises w e w' : c w = (inl e, w') → bind c k w = (inl e, w').
Proof. intros E. unfold bind. now rewrite E. Qed.

End Bind.

(** ** The client *)

Lemma make_request_fails c d w :
  Dishy._make_request (Fails c d) w
  = (inl (Py.RpcError c d), logged Log.ERROR (Log.GrpcError c d) w).
Proof. reflexivity. Qed.

Lemma make_request_status r w :
  Pb.code (Pb.status r) ≠ 0 →
  Dishy._make_request (Returns r) w
  = (inr None,
     logged Log.WARNING (Log.RequestFailed (Pb.message (Pb.status r)) (Pb.code (Pb.status r))) w).
Proof.
  intros H. unfold Dishy._make_request.
  apply Z.eqb_neq in H. now rewrite H.
Qed.

Lemma make_request_ok r w :
  Pb.code (Pb.status r) = 0 →
  Dishy._make_request (Returns r) w = (inr (Some r), w).
Proof. intros H. unfold Dishy._make_request. now rewrite H. Qed.

Lemma get_position_fails c d w :
  Dishy.get_position (Fails c d) w
  = (inl (Py.RpcError c d), logged Log.ERROR (Log.GrpcError c d) w).
Proof. reflexivity. Qed.

Lemma get_position_ok r w :
  Pb.code (Pb.status r) = 0 →
  Dishy.get_position (Returns r) w = (inr (position_of (Pb.location r)), w).
Proof.
  intros H. unfold Dishy.get_position.
  rewrite (bind_returns _ _ _ _ _ (make_request_ok r w H)).
  now rewrite H.
Qed.

Lemma get_device_info_ok r w :
  Pb.code (Pb.status r) = 0 →
  Dishy.get_device_info (Returns r) w = (inr (Pb.get_device_info r), w).
Proof.
  intros H. unfold Dishy.get_device_info.
  now rewrite (bind_returns _ _ _ _ _ (make_request_ok r w H)).
Qed.

Lemma get_device_info_fails call w :
  fetch_fails call →
  ∃ e w', Dishy.get_device_info call w = (inl e, w')
          ∧ dbusservice w' = dbusservice w ∧ timeouts w' = timeouts w.
Proof.
  destruct call as [r | c d]; simpl; intros H.
  - eexists _, _. unfold Dishy.get_device_info.
    rewrite (bind_returns _ _ _ _ _ (make_request_status r w H)). repeat split.
  - eexists _, _. unfold Dishy.get_device_info.
    rewrite (bind_raises _ _ _ _ _ (make_request_fails c d w)). repeat split.
Qed.

Lemma get_position_all_or_none call w p w' :
  Dishy.get_position call w = (inr p, w') → all_or_none p.
Proof.
  destruct call as [r | c d]; [| rewrite get_position_fails; discriminate].
  destruct (Z.eq_dec (Pb.code (Pb.status r)) 0) as [H | H].
  - rewrite (get_position_ok r w H). intros [= <- <-].
    unfold all_or_none, position_of. destruct (Pb.lla (Pb.location r)); simpl; eauto.
  - unfold Dishy.get_position.
    rewrite (bind_returns _ _ _ _ _ (make_request_status r w H)). discriminate.
Qed.

Lemma get_position_status r w :
  Pb.code (Pb.status r) ≠ 0 →
  Dishy.get_position (Returns r) w
  = (inl (Py.AttributeError "NoneType" "status"),
     logged Log.WARNING (Log.RequestFailed (Pb.message (Pb.status r)) (Pb.code (Pb.status r))) w).
Proof.
  intros H. unfold Dishy.get_position.
  now rewrite (bind_returns _ _ _ _ _ (make_request_status r w H)).
Qed.

(** ** The published tree *)

Lemma setitem_eq p v w :
  VeDbus.setitem p v w =
  match published w p with
  | Some _ => (inr tt, stored p v w)
  | None =>
      (inl (match dbusservice w with
            | None => Py.AttributeError "DbusService" "_dbusservice"
            | Some _ => Py.KeyError p
            end), w)
  end.
Proof.
  unfold VeDbus.setitem, published, stored, bind, get, VeDbus.no_service, raise, modify.
  destruct (dbusservice w) as [s |] eqn:Es; [| reflexivity].
  destruct (paths s !! p) as [it |] eqn:Ep; [| reflexivity].
  simpl. do 3 f_equal. unfold store. f_equal.
  apply map_eq. intros q. rewrite lookup_insert, lookup_alter.
  case_decide; [subst q; now rewrite Ep | reflexivity].
Qed.

Lemma published_stored_same p v w :
  is_Some (published w p) → published (stored p v w) p = Some v.
Proof.
  unfold published, stored. destruct (dbusservice w) as [s |]; simpl; [| intros [? [=]]].
  rewrite lookup_alter, decide_True by reflexivity.
  destruct (paths s !! p); simpl; [reflexivity | intros [? [=]]].
Qed.

Lemma published_stored_other p q v w :
  p ≠ q → published (stored p v w) q = published w q.
Proof.
  intros H. unfold published, stored. destruct (dbusservice w) as [s |]; simpl; [| reflexivity].
  now rewrite lookup_alter, decide_False.
Qed.

Lemma published_stored p q v w :
  published (stored p v w) q
  = if decide (p = q) then (fun _ => v) <$> published w p else published w q.
Proof.
  case_decide as H.
  - subst q. unfold published, stored. destruct (dbusservice w) as [s |]; simpl; [| reflexivity].
    rewrite lookup_alter, decide_True by reflexivity. now destruct (paths s !! p).
  - now apply published_stored_other.
Qed.

Lemma published_stored_eq p v w :
  published (stored p v w) p = (fun _ => v) <$> published w p.
Proof. rewrite published_stored. now rewrite decide_True. Qed.

Lemma published_set_log f w p : published (set_log f w) p = published w p.
Proof. reflexivity. Qed.

Lemma published_logged l m w p : published (logged l m w) p = published w p.
Proof. reflexivity. Qed.

(** Two services with the same name, registration and items are equal. *)
Lemma service_ext (s s' : VeDbusService) :
  name s = name s' → registered s = registered s' →
  (∀ q, paths s !! q = paths s' !! q) → s = s'.
Proof.
  destruct s, s'; simpl; intros -> -> H. f_equal. now apply map_eq.
Qed.

Lemma store_store p v s : store p v (store p v s) = store p v s.
Proof.
  apply service_ext; try reflexivity. intros q. unfold store; simpl.
  rewrite !lookup_alter. case_decide; [| reflexivity].
  rewrite decide_True by reflexivity. now destruct (paths s !! p).
Qed.

Lemma store_comm p v q u s : p ≠ q → store p v (store q u s) = store q u (store p v s).
Proof.
  intros H. unfold store; simpl. f_equal. now apply alter_alter_ne.
Qed.

Lemma stored_stored p v w : stored p v (stored p v w) = stored p v w.
Proof.
  unfold stored. destruct w as [l [s |] ? ? ? ? ?]; simpl; [| reflexivity].
  unfold set_dbusservice; simpl. now rewrite store_store.
Qed.

(** Stepping through [publish]. *)
Lemma bind_setitem {B} p v (k : unit → M B) w :
  bind (VeDbus.setitem p v) k w =
  match published w p with
  | Some _ => k tt (stored p v w)
  | None =>
      (inl (match dbusservice w with
            | None => Py.AttributeError "DbusService" "_dbusservice"
            | Some _ => Py.KeyError p
            end), w)
  end.
Proof. unfold bind. rewrite setitem_eq. now destruct (published w p). Qed.

Lemma bind_logging {B} l m (k : unit → M B) w :
  bind (logging l m) k w = k tt (logged l m w).
Proof. reflexivity. Qed.

Lemma int_of_float_trunc f :
  Py.is_finite f = true → Py.int_of_float f = inr (trunc f).
Proof.
  destruct f as [s | s | | s m e]; try discriminate; intros _; [reflexivity |].
  unfold Py.int_of_float, trunc, Py.fraction. f_equal.
  destruct (Z.leb_spec 0 e) as [He | He]; simpl fst; simpl snd.
  - rewrite Z.shiftl_mul_pow2 by assumption.
    destruct s; now rewrite Z.quot_1_r.
  - assert (Hs : Z.shiftl (Z.pos m) e = Z.pos m / 2 ^ (- e)).
    { rewrite <- (Z.opp_involutive e) at 1.
      rewrite Z.shiftl_opp_r. apply Z.shiftr_div_pow2. lia. }
    rewrite Hs.
    assert (0 < 2 ^ (- e)) by (apply Z.pow_pos_nonneg; lia).
    destruct s.
    + rewrite Z.quot_opp_l by lia. f_equal. symmetry. apply Z.quot_div_nonneg; lia.
    + symmetry. apply Z.quot_div_nonneg; lia.
Qed.

Lemma int_finite f :
  Py.is_finite f = true → ∀ w, DbusService.int (Some f) w = (inr (trunc f), w).
Proof. intros H w. unfold DbusService.int. now rewrite (int_of_float_trunc f H). Qed.

Lemma int_not_finite f :
  Py.is_finite f = false →
  ∃ e, (∀ w, DbusService.int (Some f) w = (inl e, w)) ∧ Py.is_transport e = false.
Proof.
  destruct f; try discriminate; intros _; eexists; split; try (intros w; reflexivity); reflexivity.
Qed.

(** [get_position] reads nothing of the state and only adds to the log. *)
Lemma get_position_log call :
  ∃ res f, ∀ w, Dishy.get_position call w = (res, set_log f w).
Proof.
  destruct call as [r | c d].
  - destruct (Z.eq_dec (Pb.code (Pb.status r)) 0) as [H | H].
    + exists (inr (position_of (Pb.location r))), (fun l => l). intros w.
      rewrite get_position_ok by assumption. now destruct w.
    + eexists _, _. intros w.
      apply (get_position_status r w H).
  - eexists _, _. intros w. apply get_position_fails.
Qed.

(** ** What [publish] and [refresh] leave alone *)

Lemma service_kept_refl o : service_kept o o.
Proof. destruct o; simpl; auto. Qed.

Lemma service_kept_trans o1 o2 o3 :
  service_kept o1 o2 → service_kept o2 o3 → service_kept o1 o3.
Proof.
  destruct o1, o2, o3; simpl; try tauto.
  intros (-> & -> & H) (-> & -> & H'). repeat split; intros Hp.
  - now apply H, H'.
  - now apply H', H.
Qed.

Lemma same_frame_refl w : same_frame w w.
Proof. unfold same_frame. repeat split. apply service_kept_refl. Qed.

Lemma same_frame_trans w1 w2 w3 :
  same_frame w1 w2 → same_frame w2 w3 → same_frame w1 w3.
Proof.
  unfold same_frame. intros (-> & -> & -> & -> & -> & H) (-> & -> & -> & -> & -> & H').
  repeat split. eapply service_kept_trans; eassumption.
Qed.

Lemma same_frame_logged l m w : same_frame w (logged l m w).
Proof. unfold same_frame. repeat split. apply service_kept_refl. Qed.

Lemma same_frame_stored p v w : same_frame w (stored p v w).
Proof.
  unfold same_frame. repeat split. simpl. destruct (dbusservice w) as [s |]; simpl; auto.
  repeat split; unfold store; simpl; rewrite lookup_alter;
    case_decide; subst; try tauto; rewrite fmap_is_Some; tauto.
Qed.

Lemma framed_ret {A} (a : A) : framed (ret a).
Proof. intros w. apply same_frame_refl. Qed.

Lemma framed_bind {A B} (c : M A) (k : A → M B) :
  framed c → (∀ a, framed (k a)) → framed (bind c k).
Proof.
  intros Hc Hk w. unfold bind. specialize (Hc w).
  destruct (c w) as [[e | a] w1]; simpl in *; [assumption |].
  eapply same_frame_trans; [eassumption | apply Hk].
Qed.

Lemma framed_logging l m : framed (logging l m).
Proof. intros w. apply same_frame_logged. Qed.

Lemma framed_setitem p v : framed (VeDbus.setitem p v).
Proof.
  intros w. rewrite setitem_eq. destruct (published w p); simpl.
  - apply same_frame_stored.
  - apply same_frame_refl.
Qed.

Lemma framed_int x : framed (DbusService.int x).
Proof.
  intros w. unfold DbusService.int. destruct x as [f |]; [| apply same_frame_refl].
  destruct (Py.int_of_float f); apply same_frame_refl.
Qed.

Lemma framed_get_position call : framed (Dishy.get_position call).
Proof.
  intros w. destruct (get_position_log call) as (res & f & H). rewrite H.
  unfold same_frame. repeat split. apply service_kept_refl.
Qed.

Lemma framed_publish location : framed (DbusService.publish location).
Proof.
  unfold DbusService.publish.
  destruct (latitude location), (longitude location);
    repeat first [ apply framed_setitem | apply framed_logging | apply framed_int
                 | apply framed_ret | apply framed_bind; [| intros ?] ].
Qed.

Lemma framed_refresh call : framed (DbusService.refresh call).
Proof.
  apply framed_bind; [apply framed_get_position | intros; apply framed_publish].
Qed.

(** [refresh] has no [return]: when it does not raise, it gives [None]. *)
Lemma publish_result location w v :
  (DbusService.publish location w).1 = inr v → v = Py.RNone.
Proof.
  unfold DbusService.publish.
  destruct (latitude location), (longitude location);
    repeat (rewrite bind_setitem; destruct (published _ _); [| discriminate]);
    rewrite ?bind_logging; simpl; try congruence.
  unfold bind at 1. destruct (DbusService.int _ _) as [[e | a] w1]; [discriminate |].
  rewrite bind_setitem. destruct (published _ _); [| discriminate].
  rewrite bind_logging. simpl. congruence.
Qed.

Lemma refresh_result call w v :
  (DbusService.refresh call w).1 = inr v → v = Py.RNone.
Proof.
  unfold DbusService.refresh, bind.
  destruct (Dishy.get_position call w) as [[e | p] w1]; [discriminate |].
  apply publish_result.
Qed.

(** ** What [publish] writes *)

Lemma has_telemetry_inv w :
  has_telemetry w →
  is_Some (published w "/Fix") ∧ is_Some (published w "/Position/Latitude")
  ∧ is_Some (published w "/Position/Longitude") ∧ is_Some (published w "/Position/Altitude").
Proof.
  unfold has_telemetry, telemetry_paths. intros H.
  repeat match goal with
         | H : Forall _ (_ :: _) |- _ => apply Forall_cons in H; destruct H as [? H]
         end.
  auto.
Qed.

(** One assignment to a path that is known to exist. *)
Ltac assign H :=
  rewrite bind_setitem, ?published_stored_other by discriminate;
  destruct H as [? H]; rewrite H.

Lemma publish_no_fix location w :
  latitude location = None ∨ longitude location = None →
  is_Some (published w "/Fix") →
  DbusService.publish location w
  = (inr Py.RNone, logged Log.INFO Log.NoFix (stored "/Fix" (Py.VInt 0) w)).
Proof.
  intros Hno HF. unfold DbusService.publish.
  destruct (latitude location), (longitude location);
    try (destruct Hno; discriminate); assign HF; reflexivity.
Qed.

Lemma publish_fix la lo al w :
  has_telemetry w → Py.is_finite al = true →
  DbusService.publish (MkPosition (Some la) (Some lo) (Some al)) w
  = (inr Py.RNone,
     logged Log.INFO (Log.UpdatedPosition la lo al)
       (stored "/Position/Altitude" (Py.VInt (trunc al))
          (stored "/Position/Longitude" (Py.VFloat lo)
             (stored "/Position/Latitude" (Py.VFloat la)
                (stored "/Fix" (Py.VInt 1) w))))).
Proof.
  intros Ht Hfin. apply has_telemetry_inv in Ht. destruct Ht as (HF & HLa & HLo & HAl).
  unfold DbusService.publish. simpl.
  assign HF. assign HLa. assign HLo.
  rewrite (bind_returns _ _ _ _ _ (int_finite al Hfin _)).
  assign HAl. reflexivity.
Qed.

Lemma publish_not_finite la lo al w :
  has_telemetry w → Py.is_finite al = false →
  ∃ e, DbusService.publish (MkPosition (Some la) (Some lo) (Some al)) w
       = (inl e,
          stored "/Position/Longitude" (Py.VFloat lo)
            (stored "/Position/Latitude" (Py.VFloat la)
               (stored "/Fix" (Py.VInt 1) w)))
       ∧ Py.is_transport e = false.
Proof.
  intros Ht Hinf. apply has_telemetry_inv in Ht. destruct Ht as (HF & HLa & HLo & HAl).
  destruct (int_not_finite al Hinf) as (e & He & Htr). exists e. split; [| assumption].
  unfold DbusService.publish. simpl.
  assign HF. assign HLa. assign HLo.
  now rewrite (bind_raises _ _ _ _ _ (He _)).
Qed.

(** ** Repeating [publish] *)

(** An assignment repeated above assignments to other paths is absorbed. *)
Lemma store_absorb1 p v q u s :
  p ≠ q → store p v (store q u (store p v s)) = store q u (store p v s).
Proof. intros H. now rewrite (store_comm p v q u), store_store. Qed.

Lemma store_absorb2 p v q u r t s :
  p ≠ q → p ≠ r →
  store p v (store q u (store r t (store p v s))) = store q u (store r t (store p v s)).
Proof. intros Hq Hr. now rewrite (store_comm p v q u), store_absorb1. Qed.

Lemma store_absorb3 p v q u r t x y s :
  p ≠ q → p ≠ r → p ≠ x →
  store p v (store q u (store r t (store x y (store p v s))))
  = store q u (store r t (store x y (store p v s))).
Proof. intros Hq Hr Hx. now rewrite (store_comm p v q u), store_absorb2. Qed.

(** Storing again the values of a sequence of assignments changes nothing. *)
Ltac same_service :=
  cbn [ret fst snd logged set_log stored set_dbusservice dbusservice];
  match goal with
  | |- context [dbusservice ?w] =>
      is_var w; destruct (dbusservice w) as [s |]; [| reflexivity]
  end;
  cbn [fmap option_fmap option_map]; f_equal;
  repeat first [ rewrite store_store
               | rewrite store_absorb1 by discriminate
               | rewrite store_absorb2 by discriminate
               | rewrite store_absorb3 by discriminate ];
  reflexivity.

Ltac same_result :=
  first [ reflexivity
        | cbn [ret fst snd logged set_log stored set_dbusservice dbusservice];
          match goal with
          | |- context [dbusservice ?w] => is_var w; destruct (dbusservice w); reflexivity
          end ].

(** Reading a path after some assignments and log records. *)
Ltac lookup_through :=
  repeat first [ rewrite published_logged | rewrite published_set_log | rewrite published_stored_eq
               | rewrite published_stored_other by discriminate ].

Ltac lookup_through_in H :=
  repeat first [ rewrite published_logged in H | rewrite published_set_log in H | rewrite published_stored_eq in H
               | rewrite published_stored_other in H by discriminate ].

(** The next assignment of the first run, recorded in [H]: either the
    path exists in the state the run started from, or the run stops. *)
Ltac next_assign H E :=
  rewrite bind_setitem in H; lookup_through_in H;
  match type of H with
  | context [published ?w ?p] =>
      destruct (published w p) eqn:E; cbn [fmap option_fmap option_map] in H; cbv beta iota in H
  end.

(** The first run is over: name its result and its final state. *)
Ltac stop H := injection H as <- <-.

(** The same assignment when the run is repeated. *)
Ltac again := rewrite bind_setitem; lookup_through;
  repeat match goal with H : published _ _ = _ |- _ => rewrite H end;
  cbn [fmap option_fmap option_map]; cbv beta iota.

(** Publishing the same position again, whatever was logged in between,
    ends the same way and leaves the service as the first time. *)
Lemma publish_idempotent location f w :
  (DbusService.publish location (set_log f (DbusService.publish location w).2)).1
  = (DbusService.publish location w).1
  ∧ dbusservice (DbusService.publish location (set_log f (DbusService.publish location w).2)).2
    = dbusservice (DbusService.publish location w).2.
Proof.
  destruct (DbusService.publish location w) as [r1 w1] eqn:E1. simpl.
  unfold DbusService.publish in *.
  destruct (latitude location) as [la |], (longitude location) as [lo |].
  2, 3, 4:
    next_assign E1 EF;
    [ rewrite bind_logging in E1; stop E1; again; rewrite bind_logging;
      split; [same_result | same_service]
    | stop E1; again; split; same_result ].
  next_assign E1 EF; [| stop E1; again; split; same_result].
  next_assign E1 ELa; [| stop E1; again; again; split; [same_result | same_service]].
  next_assign E1 ELo; [| stop E1; again; again; again; split; [same_result | same_service]].
  unfold DbusService.int in *.
  destruct (altitude location) as [al |]; cbn [bind raise ret] in E1;
    [| stop E1; again; again; again; cbn [bind raise ret];
       split; [same_result | same_service]].
  destruct (Py.int_of_float al) as [e | z] eqn:Eint; cbn [bind raise ret] in E1;
    [ stop E1; again; again; again; cbn [bind raise ret];
      split; [same_result | same_service] |].
  next_assign E1 EAl;
    [| stop E1; again; again; again; cbn [bind raise ret]; again;
       split; [same_result | same_service]].
  rewrite bind_logging in E1. stop E1.
  again; again; again. cbn [bind raise ret]. again.
  rewrite !bind_logging.
  split; [same_result | same_service].
Qed.

Lemma refresh_idempotent call w :
  (DbusService.refresh call (DbusService.refresh call w).2).1 = (DbusService.refresh call w).1
  ∧ dbusservice (DbusService.refresh call (DbusService.refresh call w).2).2
    = dbusservice (DbusService.refresh call w).2.
Proof.
  destruct (get_position_log call) as (res & f & H).
  unfold DbusService.refresh, bind. rewrite (H w).
  destruct res as [e | location].
  - rewrite H. split; reflexivity.
  - pose proof (publish_idempotent location f (set_log f w)) as [H1 H2].
    destruct (DbusService.publish location (set_log f w)) as [r1 w1].
    rewrite H. exact (conj H1 H2).
Qed.

(** ** Construction *)

Lemma init_eq VERSION target r location_call persisted :
  Pb.code (Pb.status r) = 0 →
  DbusService.__init__ VERSION target (Returns r) location_call (boot persisted)
  = bind (DbusService.refresh location_call) (fun _ => ret (self_of target r))
         (created VERSION r persisted).
Proof.
  intros Hc. unfold DbusService.__init__.
  rewrite (bind_returns _ _ _ _ _ (get_device_info_ok r _ Hc)).
  reflexivity.
Qed.

Lemma init_fails VERSION target info_call location_call w :
  fetch_fails info_call →
  ∃ e w', DbusService.__init__ VERSION target info_call location_call w = (inl e, w')
          ∧ dbusservice w' = dbusservice w ∧ timeouts w' = timeouts w.
Proof.
  intros H. destruct (get_device_info_fails info_call w H) as (e & w' & E & Hs & Ht).
  exists e, w'. unfold DbusService.__init__.
  now rewrite (bind_raises _ _ _ _ _ E).
Qed.

Lemma fetch_fails_dec call :
  fetch_fails call ∨ ∃ r, call = Returns r ∧ Pb.code (Pb.status r) = 0.
Proof.
  destruct call as [r | c d]; simpl; [| now left].
  destruct (Z.eq_dec (Pb.code (Pb.status r)) 0); [right; eauto | now left].
Qed.

Lemma start_aborted VERSION persisted info_call location_call :
  fetch_fails info_call →
  ∃ e w, start VERSION persisted info_call location_call = Aborted e w
         ∧ dbusservice w = None ∧ timeouts w = [].
Proof.
  intros H.
  destruct (init_fails VERSION "192.168.100.1:9200" info_call location_call (boot persisted) H)
    as (e & w & E & Hs & Ht).
  exists e, w. unfold start, main. now rewrite (bind_raises _ _ _ _ _ E).
Qed.

(** What is known of the state in which the main loop is entered. *)
Lemma start_running VERSION persisted info_call location_call service w :
  start VERSION persisted info_call location_call = Running service w →
  ∃ r, info_call = Returns r ∧ Pb.code (Pb.status r) = 0
       ∧ service = self_of "192.168.100.1:9200" r
       ∧ timeouts w = [Timeout 60000 60000 ServiceRefresh]
       ∧ clock w = 0
       ∧ settings w = settings (created VERSION r persisted)
       ∧ localsettings w = localsettings (created VERSION r persisted)
       ∧ localsettings_writes w = 0%nat
       ∧ service_kept (dbusservice (created VERSION r persisted)) (dbusservice w).
Proof.
  destruct (fetch_fails_dec info_call) as [H | (r & -> & Hc)].
  - destruct (start_aborted VERSION persisted info_call location_call H) as (e & w' & E & _).
    rewrite E. discriminate.
  - unfold start, main. unfold bind at 1. rewrite (init_eq _ _ _ _ _ Hc).
    pose proof (framed_refresh location_call (created VERSION r persisted)) as HF.
    unfold bind at 1.
    destruct (DbusService.refresh location_call (created VERSION r persisted))
      as [[e | v] w1]; [discriminate |].
    destruct HF as (Hs & Hl & Hn & Hk & Ht & Hv). simpl in Hs, Hl, Hn, Hk, Ht.
    unfold GLib.timeout_add, bind, get, modify, ret, logging. simpl.
    intros [= <- <-]. exists r. simpl. rewrite Ht, Hk.
    repeat split; try assumption.
Qed.

(** ** The main loop *)

Lemma iteration_idle handle w :
  timeouts w = [] → GLib.iteration handle w = (None, w).
Proof. intros H. unfold GLib.iteration. now rewrite H. Qed.

Lemma run_idle handles w :
  timeouts w = [] → GLib.run handles w = ([], w).
Proof.
  induction handles as [| h rest IH]; intros H; [reflexivity |].
  simpl. rewrite (iteration_idle h w H). now rewrite (IH H).
Qed.

(** A timer whose function is [service.refresh] is destroyed by its
    first expiry. *)
Lemma iteration_refresh handle w ms t :
  timeouts w = [Timeout ms t ServiceRefresh] →
  ∃ w', GLib.iteration handle w = (Some (Z.max (clock w) t), w') ∧ timeouts w' = [].
Proof.
  intros H. unfold GLib.iteration. rewrite H. simpl.
  pose proof (refresh_result handle (set_clock (Z.max (clock w) t) w)) as Hr.
  destruct (DbusService.refresh handle (set_clock (Z.max (clock w) t) w))
    as [[e | v] w1]; simpl in *.
  - eexists. split; reflexivity.
  - rewrite (Hr v eq_refl). simpl. eexists. split; reflexivity.
Qed.

Lemma run_refresh_once handles w ms t :
  timeouts w = [Timeout ms t ServiceRefresh] →
  (GLib.run handles w).1
  = match handles with [] => [] | _ :: _ => [Z.max (clock w) t] end.
Proof.
  intros H. destruct handles as [| h rest]; [reflexivity |].
  simpl. destruct (iteration_refresh h w ms t H) as (w' & E & Ht).
  rewrite E. now rewrite (run_idle rest w' Ht).
Qed.

(** ** The states of a running publisher *)

Lemma is_Some_published w p :
  is_Some (published w p) ↔ ∃ s, dbusservice w = Some s ∧ is_Some (paths s !! p).
Proof.
  unfold published. destruct (dbusservice w) as [s |].
  - destruct (paths s !! p) as [it |] eqn:E; split.
    + intros _. exists s. rewrite E. eauto.
    + intros _. eauto.
    + intros [? [=]].
    + intros (s' & [= <-] & [x Hx]). congruence.
  - split; [intros [? [=]] | intros (? & [=] & _)].
Qed.

Lemma kept_has_telemetry w w' :
  service_kept (dbusservice w) (dbusservice w') → has_telemetry w → has_telemetry w'.
Proof.
  intros Hk. unfold has_telemetry. intros H. eapply Forall_impl; [exact H |]. clear H. intros p.
  rewrite !is_Some_published. intros (s & Hs & Hp). rewrite Hs in Hk. simpl in Hk.
  destruct (dbusservice w') as [s' |]; [| contradiction].
  exists s'. split; [reflexivity |]. now apply Hk.
Qed.

Lemma created_has_telemetry VERSION r persisted : has_telemetry (created VERSION r persisted).
Proof.
  unfold has_telemetry, telemetry_paths.
  repeat (constructor; [eexists; reflexivity |]). constructor.
Qed.

Lemma reachable_has_telemetry w : reachable w → has_telemetry w.
Proof.
  induction 1 as [VERSION persisted info_call location_call service w H | call w _ IH].
  - apply start_running in H. destruct H as (r & _ & _ & _ & _ & _ & _ & _ & _ & Hk).
    exact (kept_has_telemetry _ _ Hk (created_has_telemetry VERSION r persisted)).
  - refine (kept_has_telemetry _ _ _ IH).
    apply (framed_refresh call w).
Qed.

Lemma reachable_visible w : reachable w → externally_visible w = true.
Proof.
  assert (Hk : ∀ w w', service_kept (dbusservice w) (dbusservice w') →
                externally_visible w = true → externally_visible w' = true).
  { intros w0 w' Hk. unfold externally_visible.
    destruct (dbusservice w0), (dbusservice w'); simpl in Hk; try tauto; try discriminate.
    destruct Hk as (_ & -> & _). auto. }
  induction 1 as [VERSION persisted info_call location_call service w H | call w _ IH].
  - apply start_running in H. destruct H as (r & _ & _ & _ & _ & _ & _ & _ & _ & Hs).
    exact (Hk _ _ Hs eq_refl).
  - refine (Hk _ _ _ IH). apply (framed_refresh call w).
Qed.

(** ** The custom name *)

Lemma settings_changed_externally_eq setting newvalue w d p :
  settings w = Some d → setting_paths d !! setting = Some p → eventCallback d = None →
  settings_changed_externally setting newvalue w
  = (inr tt,
     set_settings
       (Some (MkSettingsDevice (setting_paths d) (<[setting := newvalue]> (values d)) None))
       (set_localsettings (<[p := newvalue]> (localsettings w))
                          (S (localsettings_writes w)) w)).
Proof.
  intros Hs Hp Hc. unfold settings_changed_externally, handleChangedSetting, bind, get, modify.
  rewrite Hs, Hp. simpl. rewrite Hs. simpl. now rewrite Hc.
Qed.

(** The settings object that [_setup_settings] builds has no event
    callback, and it is the one a running publisher holds. *)
Lemma start_settings VERSION persisted info_call location_call service w :
  start VERSION persisted info_call location_call = Running service w →
  ∃ d, settings w = Some d ∧ eventCallback d = None
       ∧ setting_paths d !! "CustomName"
         = Some (DbusService.custom_name_path (DbusService.id service))
       ∧ is_Some (localsettings w !! DbusService.custom_name_path (DbusService.id service)).
Proof.
  intros H. apply start_running in H.
  destruct H as (r & _ & _ & -> & _ & _ & Hs & Hl & _ & _).
  eexists. split; [exact Hs |]. split; [reflexivity |]. split.
  - simpl. apply lookup_insert_eq.
  - rewrite Hl. simpl. unfold persisted_after.
    destruct (persisted !! _) eqn:E; [rewrite E; eauto |].
    rewrite lookup_insert_eq. eauto.
Qed.

(** ** The short id *)

Lemma hexdigest_prefix msg :
  Py.slice_to 8 (Sha256.hexdigest msg)
  = Sha256.hex (Sha256.be_bytes 4 (Sha256.ra (Sha256.final msg))).
Proof. reflexivity. Qed.

Lemma hexdigit_is_hex n : is_hex (Sha256.hexdigit n).
Proof.
  unfold is_hex, Sha256.hexdigit.
  destruct (nth_in_or_default (Z.to_nat n) (list_ascii_of_string "0123456789abcdef") "0"%char)
    as [H | H]; [exact H |].
  rewrite H. simpl. auto.
Qed.

Lemma hex_is_hex bs : Forall is_hex (list_ascii_of_string (Sha256.hex bs)).
Proof.
  induction bs as [| b rest IH]; simpl; [constructor |].
  repeat (constructor; [apply hexdigit_is_hex |]). exact IH.
Qed.

Lemma hex_length bs : String.length (Sha256.hex bs) = (2 * length bs)%nat.
Proof. induction bs as [| b rest IH]; simpl; [reflexivity | rewrite IH; lia]. Qed.

(* ===================================================================== *)
(** * The claims of the specification                                    *)
(* ===================================================================== *)

Lemma telemetry_ext w w' : dbusservice w = dbusservice w' → telemetry w = telemetry w'.
Proof. intros H. unfold telemetry, published. now rewrite H. Qed.

Lemma get_position_state call w location w1 :
  Dishy.get_position call w = (inr location, w1) →
  dbusservice w1 = dbusservice w ∧ (∀ p, published w1 p = published w p)
  ∧ has_telemetry w1 = has_telemetry w.
Proof.
  destruct (get_position_log call) as (res & f & H). rewrite H. intros [= _ <-].
  repeat split.
Qed.

(** ** C1 *)

(** C1, on the code. A response with a non-zero status code makes
    [_make_request] log a warning and return [None]; [get_position] then
    reads [r.status] of [None] and raises [AttributeError], which is not a
    transport-level failure: no position is returned. *)
Theorem get_position_nonzero_status_raises (r : Pb.Response) (w : World) :
  Pb.code (Pb.status r) ≠ 0 →
  Dishy.get_position (Returns r) w
  = (inl (Py.AttributeError "NoneType" "status"),
     logged Log.WARNING (Log.RequestFailed (Pb.message (Pb.status r)) (Pb.code (Pb.status r))) w)
  ∧ Py.is_transport (Py.AttributeError "NoneType" "status") = false.
Proof. intros H. split; [now apply get_position_status | reflexivity]. Qed.

Lemma get_position_nonzero_status_raises_witness :
  Pb.code (Pb.status Demo.unavailable) ≠ 0
  ∧ (Dishy.get_position (Returns Demo.unavailable) Demo.world).1
    = inl (Py.AttributeError "NoneType" "status").
Proof.
  assert (H : Pb.code (Pb.status Demo.unavailable) ≠ 0) by (simpl; lia).
  split; [exact H |].
  now rewrite (proj1 (get_position_nonzero_status_raises Demo.unavailable Demo.world H)).
Defined.

(** ** C2 *)

(** C2 as stated fails: when the request times out, [refresh] does
    raise; the [RpcError] leaves it. *)
Lemma refresh_timeout_raises :
  (DbusService.refresh (Fails "StatusCode.DEADLINE_EXCEEDED" "Deadline Exceeded") Demo.world).1
  = inl (Py.RpcError "StatusCode.DEADLINE_EXCEEDED" "Deadline Exceeded")
  ∧ ¬ ∃ v, (DbusService.refresh (Fails "StatusCode.DEADLINE_EXCEEDED" "Deadline Exceeded")
              Demo.world).1 = inr v.
Proof. split; [reflexivity | intros [v H]; discriminate H]. Qed.

(** C2, amended. On a transport-level failure [refresh] logs the error,
    leaves the published service, and so the four telemetry fields, as
    they were, and raises the [RpcError] to its caller. *)
Theorem refresh_transport_failure (c d : string) (w : World) :
  (DbusService.refresh (Fails c d) w).1 = inl (Py.RpcError c d)
  ∧ log (DbusService.refresh (Fails c d) w).2
    = (log w ++ [Log.Record Log.ERROR (Log.GrpcError c d)])%list
  ∧ dbusservice (DbusService.refresh (Fails c d) w).2 = dbusservice w
  ∧ telemetry (DbusService.refresh (Fails c d) w).2 = telemetry w.
Proof.
  unfold DbusService.refresh.
  rewrite (bind_raises _ _ _ _ _ (get_position_fails c d w)).
  repeat split.
Qed.

(** ** C3 *)

(** C3 as stated fails on both counts. A bus client writes "Boat" to
    [/CustomName]: the change callback raises, and the settings service
    still holds "Starlink". Another client sets the setting to "Boat":
    the published [/CustomName] still reads "Starlink". *)
Lemma custom_name_not_synchronised :
  (bus_SetValue "/CustomName" (Py.VStr "Boat") Demo.world).1
  = inl (Py.AttributeError "DbusService" "_handle_writable_setting_change")
  ∧ localsettings (bus_SetValue "/CustomName" (Py.VStr "Boat") Demo.world).2
      !! "/Settings/Devices/starlink_6303b763/CustomName" = Some "Starlink"
  ∧ published (settings_changed_externally "CustomName" "Boat" Demo.world).2 "/CustomName"
    = Some (Py.VStr "Starlink")
  ∧ published (settings_changed_externally "CustomName" "Boat" Demo.world).2 "/CustomName"
    ≠ Some (Py.VStr "Boat").
Proof. vm_compute. repeat split. discriminate. Qed.

(** C3, amended. The settings object is built without an event callback
    (line 114). When another client changes the custom name, the
    settings service persists it with one write, the settings object
    caches the new value, the publisher writes nothing back, and the
    published service, [/CustomName] included, is left as it was. *)
Theorem external_change_not_mirrored (w : World) (d : SettingsDevice) (p newvalue : string) :
  settings w = Some d → eventCallback d = None → setting_paths d !! "CustomName" = Some p →
  (settings_changed_externally "CustomName" newvalue w).1 = inr tt
  ∧ localsettings (settings_changed_externally "CustomName" newvalue w).2 !! p = Some newvalue
  ∧ localsettings_writes (settings_changed_externally "CustomName" newvalue w).2
    = S (localsettings_writes w)
  ∧ (∃ d', settings (settings_changed_externally "CustomName" newvalue w).2 = Some d'
           ∧ values d' !! "CustomName" = Some newvalue)
  ∧ dbusservice (settings_changed_externally "CustomName" newvalue w).2 = dbusservice w
  ∧ published (settings_changed_externally "CustomName" newvalue w).2 "/CustomName"
    = published w "/CustomName".
Proof.
  intros Hs Hc Hp.
  rewrite (settings_changed_externally_eq "CustomName" newvalue w d p Hs Hp Hc). simpl.
  split; [reflexivity |]. split; [apply lookup_insert_eq |]. split; [reflexivity |].
  split; [| split; reflexivity].
  eexists. split; [reflexivity |]. simpl. apply lookup_insert_eq.
Qed.

Lemma external_change_not_mirrored_witness :
  published (settings_changed_externally "CustomName" "Boat" Demo.world).2 "/CustomName"
  = published Demo.world "/CustomName"
  ∧ localsettings_writes (settings_changed_externally "CustomName" "Boat" Demo.world).2 = 1%nat.
Proof.
  pose (d := match settings Demo.world with
             | Some d => d
             | None => MkSettingsDevice ∅ ∅ None
             end).
  assert (Hs : settings Demo.world = Some d) by (vm_compute; reflexivity).
  assert (Hc : eventCallback d = None) by (vm_compute; reflexivity).
  assert (Hp : setting_paths d !! "CustomName"
               = Some "/Settings/Devices/starlink_6303b763/CustomName")
    by (vm_compute; reflexivity).
  destruct (external_change_not_mirrored Demo.world d _ "Boat" Hs Hc Hp)
    as (_ & _ & Hw & _ & _ & Hpub).
  split; [exact Hpub | exact Hw].
Defined.

(** ** C4 *)

(** C4, on the code. [refresh] ends without a [return], so the function
    handed to [GLib.timeout_add] gives [None], which GLib takes as False:
    the timer is destroyed by its first expiry. Whatever the dish
    answers during the iterations of the main loop, [refresh] is called
    by the timer once, 60000 ms after startup, and never again. *)
Theorem timer_fires_once (VERSION : string) (persisted : gmap string string)
    (info_call location_call : rpc) (service : DbusService.self) (w : World)
    (handles : list rpc) :
  start VERSION persisted info_call location_call = Running service w →
  timeouts w = [Timeout 60000 60000 ServiceRefresh]
  ∧ (GLib.run handles w).1 = match handles with [] => [] | _ :: _ => [60000] end
  ∧ (handles ≠ [] → timeouts (GLib.run handles w).2 = []).
Proof.
  intros H. apply start_running in H.
  destruct H as (r & _ & _ & _ & Ht & Hk & _).
  split; [exact Ht |]. split.
  - rewrite (run_refresh_once handles w 60000 60000 Ht), Hk. reflexivity.
  - destruct handles as [| h rest]; [congruence | intros _].
    simpl. destruct (iteration_refresh h w 60000 60000 Ht) as (w' & E & Ht').
    rewrite E. now rewrite (run_idle rest w' Ht').
Qed.

Lemma timer_fires_once_witness :
  (GLib.run [Returns Demo.at_47_6; Returns Demo.at_47_6; Returns Demo.at_47_6] Demo.world).1
  = [60000].
Proof.
  assert (H : start "1.0" ∅ (Returns Demo.device_info) (Returns Demo.at_37)
              = Running (self_of "192.168.100.1:9200" Demo.device_info) Demo.world)
    by (vm_compute; reflexivity).
  exact (proj1 (proj2 (timer_fires_once _ _ _ _ _ _
                         [Returns Demo.at_47_6; Returns Demo.at_47_6; Returns Demo.at_47_6] H))).
Defined.

(** The dish moves after the first expiry; the published position does
    not follow, and three periods give one call. *)
Example three_periods_one_call :
  GLib.run [Returns Demo.at_47_6; Returns Demo.at_37; Returns Demo.at_37] Demo.world
  = ([60000], (GLib.run [Returns Demo.at_47_6] Demo.world).2)
  ∧ telemetry (GLib.run [Returns Demo.at_47_6; Returns Demo.at_37; Returns Demo.at_37]
                 Demo.world).2
    = [ Some (Py.VInt 1); Some (Py.VFloat Demo.f47_6); Some (Py.VFloat Demo.fm122_3);
        Some (Py.VInt 15) ].
Proof. vm_compute. split; reflexivity. Qed.

(** ** C5 *)

(** C5. When the position that [refresh] obtains lacks the latitude or
    the longitude, [refresh] sets [/Fix] to 0 and changes no other
    published path: latitude, longitude and altitude keep the values
    they had before the call. *)
Theorem refresh_no_fix (call : rpc) (w w1 : World) (location : Position) :
  Dishy.get_position call w = (inr location, w1) →
  latitude location = None ∨ longitude location = None →
  has_telemetry w →
  ∃ w', DbusService.refresh call w = (inr Py.RNone, w')
        ∧ published w' "/Fix" = Some (Py.VInt 0)
        ∧ published w' "/Position/Latitude" = published w "/Position/Latitude"
        ∧ published w' "/Position/Longitude" = published w "/Position/Longitude"
        ∧ published w' "/Position/Altitude" = published w "/Position/Altitude"
        ∧ (∀ p, p ≠ "/Fix" → published w' p = published w p)
        ∧ dbusservice w' = store "/Fix" (Py.VInt 0) <$> dbusservice w.
Proof.
  intros E Hno Ht.
  destruct (get_position_state call w location w1 E) as (Hs & Hp & _).
  apply has_telemetry_inv in Ht. destruct Ht as (HF & _).
  rewrite <- (Hp "/Fix") in HF.
  eexists. unfold DbusService.refresh.
  rewrite (bind_returns _ _ _ _ _ E), (publish_no_fix location w1 Hno HF).
  split; [reflexivity |].
  rewrite !published_logged.
  assert (Hother : ∀ p, p ≠ "/Fix" →
            published (stored "/Fix" (Py.VInt 0) w1) p = published w p).
  { intros p Hne. rewrite published_stored_other by congruence. apply Hp. }
  split; [now apply published_stored_same |].
  do 3 (split; [apply Hother; discriminate |]).
  split.
  - intros p Hne. now apply Hother.
  - simpl. now rewrite Hs.
Qed.

Lemma refresh_no_fix_witness :
  telemetry Demo.world
  = [ Some (Py.VInt 1); Some (Py.VFloat Demo.f37); Some (Py.VFloat Demo.fm122);
      Some (Py.VInt 10) ]
  ∧ ∃ w', DbusService.refresh (Returns Demo.no_location) Demo.world = (inr Py.RNone, w')
          ∧ telemetry w'
            = [ Some (Py.VInt 0); Some (Py.VFloat Demo.f37); Some (Py.VFloat Demo.fm122);
                Some (Py.VInt 10) ].
Proof.
  assert (Ht : telemetry Demo.world
               = [ Some (Py.VInt 1); Some (Py.VFloat Demo.f37); Some (Py.VFloat Demo.fm122);
                   Some (Py.VInt 10) ]) by (vm_compute; reflexivity).
  split; [exact Ht |].
  assert (E : Dishy.get_position (Returns Demo.no_location) Demo.world
              = (inr (MkPosition None None None), Demo.world)) by reflexivity.
  assert (H : has_telemetry Demo.world) by (vm_compute; repeat econstructor).
  destruct (refresh_no_fix _ _ _ _ E (or_introl eq_refl) H)
    as (w' & E' & HF & HLa & HLo & HAl & _).
  exists w'. split; [exact E' |].
  unfold telemetry. rewrite HF, HLa, HLo, HAl. reflexivity.
Defined.

(** ** C6 *)

(** C6. The short id of a device id [x] is the first 8 characters of
    the hexadecimal SHA-256 digest of [x]: the hexadecimal writing of
    the first 32-bit word of the hash, 8 hexadecimal characters for
    every [x]. A running publisher carries it in the name of the
    published service and in the path of the persisted custom name. *)
Theorem short_id_is_sha256_prefix (x : string) :
  DbusService.short_id x = Py.slice_to 8 (Sha256.hexdigest (Py.encode x))
  ∧ DbusService.short_id x
    = Sha256.hex (Sha256.be_bytes 4 (Sha256.ra (Sha256.final (Py.encode x))))
  ∧ String.length (DbusService.short_id x) = 8%nat
  ∧ Forall is_hex (list_ascii_of_string (DbusService.short_id x))
  ∧ ∀ VERSION persisted r location_call service w,
      Pb.id (Pb.get_device_info r) = x →
      start VERSION persisted (Returns r) location_call = Running service w →
      DbusService.id service = DbusService.short_id x
      ∧ DbusService.servicename service
        = "com.victronenergy.gps.starlink_" ++ DbusService.short_id x
      ∧ name <$> dbusservice w
        = Some ("com.victronenergy.gps.starlink_" ++ DbusService.short_id x)
      ∧ (settings w ≫= fun d => setting_paths d !! "CustomName")
        = Some ("/Settings/Devices/starlink_" ++ DbusService.short_id x ++ "/CustomName")
      ∧ is_Some (localsettings w
                   !! ("/Settings/Devices/starlink_" ++ DbusService.short_id x ++ "/CustomName")).
Proof.
  split; [reflexivity |]. split; [apply hexdigest_prefix |].
  split; [unfold DbusService.short_id; rewrite hexdigest_prefix; apply hex_length |].
  split; [unfold DbusService.short_id; rewrite hexdigest_prefix; apply hex_is_hex |].
  intros VERSION persisted r location_call service w Hx H.
  pose proof (start_settings _ _ _ _ _ _ H) as (d & Hs & _ & Hp & Hl).
  apply start_running in H.
  destruct H as (r' & [= <-] & _ & -> & _ & _ & _ & _ & _ & Hk).
  simpl in Hp, Hl, Hk. subst x.
  split; [reflexivity |]. split; [reflexivity |]. split.
  - destruct (dbusservice w) as [s |]; [| contradiction]. simpl. now rewrite (proj1 Hk).
  - split; [| exact Hl]. rewrite Hs. simpl. exact Hp.
Qed.

Lemma short_id_is_sha256_prefix_witness :
  Sha256.hexdigest (Py.encode "KU123456789")
  = "6303b7638b83ea3e25316d3902e3a7405388f6b8cf6a7a9eecc807d7c1cd7f5c"
  ∧ DbusService.short_id "KU123456789" = "6303b763"
  ∧ name <$> dbusservice Demo.world = Some "com.victronenergy.gps.starlink_6303b763"
  ∧ is_Some (localsettings Demo.world !! "/Settings/Devices/starlink_6303b763/CustomName").
Proof.
  assert (Hd : Sha256.hexdigest (Py.encode "KU123456789")
               = "6303b7638b83ea3e25316d3902e3a7405388f6b8cf6a7a9eecc807d7c1cd7f5c")
    by (vm_compute; reflexivity).
  assert (Hid : DbusService.short_id "KU123456789" = "6303b763") by (vm_compute; reflexivity).
  assert (H : start "1.0" ∅ (Returns Demo.device_info) (Returns Demo.at_37)
              = Running (self_of "192.168.100.1:9200" Demo.device_info) Demo.world)
    by (vm_compute; reflexivity).
  destruct (short_id_is_sha256_prefix "KU123456789") as (_ & _ & _ & _ & Hrun).
  destruct (Hrun "1.0" ∅ Demo.device_info (Returns Demo.at_37) _ _ eq_refl H)
    as (_ & _ & Hn & _ & Hl).
  rewrite Hid in Hn, Hl.
  split; [exact Hd |]. split; [exact Hid |]. split; [exact Hn | exact Hl].
Defined.

(** ** C7 *)

(** C7 as stated fails for an altitude that is not a finite number: the
    dish reports latitude and longitude with an infinite altitude,
    [int] raises [OverflowError] after the fix flag, the latitude and
    the longitude were written, and no altitude is written. *)
Lemma refresh_infinite_altitude_raises :
  (DbusService.refresh (Returns Demo.at_infinity) Demo.world).1
  = inl (Py.OverflowError "cannot convert float infinity to integer")
  ∧ telemetry (DbusService.refresh (Returns Demo.at_infinity) Demo.world).2
    = [ Some (Py.VInt 1); Some (Py.VFloat Demo.f47_6); Some (Py.VFloat Demo.fm122_3);
        Some (Py.VInt 10) ].
Proof. vm_compute. split; reflexivity. Qed.

(** C7, amended. When the position that [refresh] obtains has latitude
    and longitude, and its altitude is a finite number, [refresh] sets
    [/Fix] to 1, writes the latitude and the longitude as they are, and
    writes the altitude truncated toward zero to an integer; no other
    published path changes. *)
Theorem refresh_fix (call : rpc) (w w1 : World) (location : Position) (la lo : spec_float) :
  Dishy.get_position call w = (inr location, w1) →
  latitude location = Some la → longitude location = Some lo →
  (∀ al, altitude location = Some al → Py.is_finite al = true) →
  has_telemetry w →
  ∃ al w', altitude location = Some al
           ∧ DbusService.refresh call w = (inr Py.RNone, w')
           ∧ telemetry w'
             = [ Some (Py.VInt 1); Some (Py.VFloat la); Some (Py.VFloat lo);
                 Some (Py.VInt (trunc al)) ]
           ∧ (∀ p, p ∉ telemetry_paths → published w' p = published w p).
Proof.
  intros E Hla Hlo Hfin Ht.
  destruct (get_position_state call w location w1 E) as (Hs & Hp & Hsame).
  rewrite <- Hsame in Ht.
  destruct (get_position_all_or_none call w location w1 E) as [(_ & _ & [al Hal]) | (Hn & _)];
    [| congruence].
  exists al. eexists. split; [exact Hal |].
  unfold DbusService.refresh. rewrite (bind_returns _ _ _ _ _ E).
  destruct location as [la' lo' al']; simpl in Hla, Hlo, Hal; subst la' lo' al'.
  rewrite (publish_fix la lo al w1 Ht (Hfin al eq_refl)).
  split; [reflexivity |].
  apply has_telemetry_inv in Ht. destruct Ht as (HF & HLa & HLo & HAl).
  split.
  - unfold telemetry. rewrite !published_logged.
    repeat first [ rewrite published_stored_same
                 | rewrite published_stored_other by discriminate ];
      try reflexivity;
      repeat first [ assumption | rewrite published_stored_other by discriminate ].
  - intros p Hnot. rewrite published_logged.
    unfold telemetry_paths in Hnot.
    rewrite !published_stored_other; [apply Hp | | | |];
      intros <-; apply Hnot; repeat constructor.
Qed.

Lemma refresh_fix_witness :
  trunc Demo.f15_7 = 15
  ∧ ∃ w', DbusService.refresh (Returns Demo.at_47_6) Demo.world = (inr Py.RNone, w')
          ∧ telemetry w'
            = [ Some (Py.VInt 1); Some (Py.VFloat Demo.f47_6); Some (Py.VFloat Demo.fm122_3);
                Some (Py.VInt 15) ].
Proof.
  assert (Htr : trunc Demo.f15_7 = 15) by (vm_compute; reflexivity).
  split; [exact Htr |].
  assert (E : Dishy.get_position (Returns Demo.at_47_6) Demo.world
              = (inr (MkPosition (Some Demo.f47_6) (Some Demo.fm122_3) (Some Demo.f15_7)),
                 Demo.world)) by reflexivity.
  assert (Hfin : ∀ al, Some Demo.f15_7 = Some al → Py.is_finite al = true)
    by (intros al [= <-]; reflexivity).
  assert (H : has_telemetry Demo.world) by (vm_compute; repeat econstructor).
  destruct (refresh_fix _ _ _ _ _ _ E eq_refl eq_refl Hfin H) as (al & w' & Hal & E' & Ht & _).
  injection Hal as <-. rewrite Htr in Ht.
  exists w'. split; [exact E' | exact Ht].
Defined.

(** ** C8 *)

(** C8. When the device-info request of the construction fails, by a
    transport error or by a non-zero status, [__init__] raises before
    the [VeDbusService] is even constructed: the process ends without
    reaching the main loop, no service exists and none is registered on
    the bus, and no timer is installed. *)
Theorem startup_failure_aborts (VERSION : string) (persisted : gmap string string)
    (info_call location_call : rpc) :
  fetch_fails info_call →
  ∃ e w, start VERSION persisted info_call location_call = Aborted e w
         ∧ dbusservice w = None
         ∧ externally_visible w = false
         ∧ timeouts w = []
         ∧ ∀ service w', start VERSION persisted info_call location_call ≠ Running service w'.
Proof.
  intros H.
  destruct (start_aborted VERSION persisted info_call location_call H) as (e & w & E & Hs & Ht).
  exists e, w. split; [exact E |]. split; [exact Hs |]. split.
  - unfold externally_visible. now rewrite Hs.
  - split; [exact Ht |]. intros service w'. rewrite E. discriminate.
Qed.

Lemma startup_failure_aborts_witness :
  fetch_fails (Fails "StatusCode.UNAVAILABLE" "failed to connect to all addresses")
  ∧ fetch_fails (Returns Demo.unavailable)
  ∧ (∃ e w, start "1.0" ∅ (Fails "StatusCode.UNAVAILABLE" "failed to connect to all addresses")
              (Returns Demo.at_37) = Aborted e w
            ∧ externally_visible w = false)
  ∧ (∃ e w, start "1.0" ∅ (Returns Demo.unavailable) (Returns Demo.at_37) = Aborted e w
            ∧ externally_visible w = false).
Proof.
  assert (H1 : fetch_fails (Fails "StatusCode.UNAVAILABLE" "failed to connect to all addresses"))
    by (simpl; exact I).
  assert (H2 : fetch_fails (Returns Demo.unavailable)) by (simpl; lia).
  split; [exact H1 |]. split; [exact H2 |]. split.
  - destruct (startup_failure_aborts "1.0" ∅ _ (Returns Demo.at_37) H1)
      as (e & w & E & _ & Hv & _).
    exists e, w. split; [exact E | exact Hv].
  - destruct (startup_failure_aborts "1.0" ∅ _ (Returns Demo.at_37) H2)
      as (e & w & E & _ & Hv & _).
    exists e, w. split; [exact E | exact Hv].
Defined.

(** ** C9 *)

(** C9. In any state, a second [refresh] that meets the same answer of
    the dish as the first ends as the first did and leaves the published
    service, and so the four telemetry fields, as the first left them. *)
Theorem refresh_twice (call : rpc) (w : World) :
  (DbusService.refresh call (DbusService.refresh call w).2).1
  = (DbusService.refresh call w).1
  ∧ dbusservice (DbusService.refresh call (DbusService.refresh call w).2).2
    = dbusservice (DbusService.refresh call w).2
  ∧ telemetry (DbusService.refresh call (DbusService.refresh call w).2).2
    = telemetry (DbusService.refresh call w).2.
Proof.
  destruct (refresh_idempotent call w) as [Hr Hs].
  split; [exact Hr |]. split; [exact Hs |]. now apply telemetry_ext.
Qed.

(** ** C10 *)

(** C10. A response with status 0 and no location makes [get_position]
    return the position with latitude, longitude and altitude all
    absent, without touching the state, and [refresh] then takes the
    no-fix branch: [/Fix] becomes 0 and "no fix" is logged. Whatever
    the response, the three fields of a returned position are all
    present or all absent. *)
Theorem success_without_location (r : Pb.Response) (w : World) :
  Pb.code (Pb.status r) = 0 → Pb.lla (Pb.location r) = None → has_telemetry w →
  Dishy.get_position (Returns r) w = (inr (MkPosition None None None), w)
  ∧ DbusService.refresh (Returns r) w
    = (inr Py.RNone, logged Log.INFO Log.NoFix (stored "/Fix" (Py.VInt 0) w))
  ∧ published (DbusService.refresh (Returns r) w).2 "/Fix" = Some (Py.VInt 0)
  ∧ ∀ call w0 p w1, Dishy.get_position call w0 = (inr p, w1) → all_or_none p.
Proof.
  intros Hc Hl Ht.
  assert (E : Dishy.get_position (Returns r) w = (inr (MkPosition None None None), w)).
  { rewrite (get_position_ok r w Hc). unfold position_of. now rewrite Hl. }
  apply has_telemetry_inv in Ht. destruct Ht as (HF & _).
  assert (E' : DbusService.refresh (Returns r) w
               = (inr Py.RNone, logged Log.INFO Log.NoFix (stored "/Fix" (Py.VInt 0) w))).
  { unfold DbusService.refresh. rewrite (bind_returns _ _ _ _ _ E).
    apply publish_no_fix; [now left | exact HF]. }
  split; [exact E |]. split; [exact E' |]. split.
  - rewrite E'. simpl. rewrite published_logged. now apply published_stored_same.
  - intros call w0 p w1. apply get_position_all_or_none.
Qed.

Lemma success_without_location_witness :
  Dishy.get_position (Returns Demo.no_location) Demo.world
  = (inr (MkPosition None None None), Demo.world)
  ∧ published (DbusService.refresh (Returns Demo.no_location) Demo.world).2 "/Fix"
    = Some (Py.VInt 0).
Proof.
  assert (Hc : Pb.code (Pb.status Demo.no_location) = 0) by reflexivity.
  assert (Hl : Pb.lla (Pb.location Demo.no_location) = None) by reflexivity.
  assert (H : has_telemetry Demo.world) by (vm_compute; repeat econstructor).
  destruct (success_without_location Demo.no_location Demo.world Hc Hl H) as (E & _ & HF & _).
  split; [exact E | exact HF].
Defined.

(* ===================================================================== *)
(** * Further properties of the code                                     *)
(* ===================================================================== *)

(** ** The outcomes of a refresh *)

Lemma refresh_outcome call w :
  has_telemetry w → refreshed w call (DbusService.refresh call w).
Proof.
  intros Ht. destruct call as [r | c d].
  - destruct (Z.eq_dec (Pb.code (Pb.status r)) 0) as [Hc | Hc].
    + unfold DbusService.refresh.
      rewrite (bind_returns _ _ _ _ _ (get_position_ok r w Hc)).
      unfold position_of. destruct (Pb.lla (Pb.location r)) as [l |] eqn:El.
      * destruct (Py.is_finite (Pb.alt l)) eqn:Hf.
        -- rewrite (publish_fix _ _ _ w Ht Hf). now apply refreshed_fix.
        -- apply has_telemetry_inv in Ht. destruct Ht as (HF & HLa & HLo & HAl).
           unfold DbusService.publish. simpl.
           assign HF. assign HLa. assign HLo.
           unfold DbusService.int.
           destruct (Py.int_of_float (Pb.alt l)) as [e | z] eqn:Ei.
           ++ cbn [bind raise]. now apply (refreshed_partial w r l e).
           ++ destruct (Pb.alt l); simpl in *; discriminate.
      * apply has_telemetry_inv in Ht. destruct Ht as (HF & _).
        rewrite (publish_no_fix (MkPosition None None None) w (or_introl eq_refl) HF).
        now apply refreshed_no_fix.
    + unfold DbusService.refresh.
      rewrite (bind_raises _ _ _ _ _ (get_position_status r w Hc)).
      now apply refreshed_status.
  - unfold DbusService.refresh.
    rewrite (bind_raises _ _ _ _ _ (get_position_fails c d w)). apply refreshed_transport.
Qed.

(** ** What is kept *)

Lemma tree_kept_refl o : tree_kept o o.
Proof. destruct o; simpl; auto. Qed.

Lemma tree_kept_trans o1 o2 o3 : tree_kept o1 o2 → tree_kept o2 o3 → tree_kept o1 o3.
Proof.
  destruct o1 as [s1 |], o2 as [s2 |], o3 as [s3 |]; simpl; try tauto.
  intros (-> & -> & H) (-> & -> & H'). repeat split.
  - rewrite (proj1 (H' p)). apply H.
  - intros Hp. rewrite (proj2 (H' p) Hp). now apply H.
Qed.

Lemma tree_kept_store p v s :
  p ∈ telemetry_paths → tree_kept (Some s) (Some (store p v s)).
Proof.
  intros Hp. simpl. repeat split; unfold store; simpl; rewrite lookup_alter.
  - case_decide; [subst p0 | reflexivity].
    unfold flags. now destruct (paths s !! p).
  - intros Hq. case_decide; [subst p0; contradiction | reflexivity].
Qed.

Lemma settings_kept_refl o : settings_kept o o.
Proof. destruct o; simpl; auto. Qed.

Lemma settings_kept_trans o1 o2 o3 :
  settings_kept o1 o2 → settings_kept o2 o3 → settings_kept o1 o3.
Proof.
  destruct o1, o2, o3; simpl; try tauto. intros [-> ->] [-> ->]. auto.
Qed.

Lemma kept_refl w : kept w w.
Proof. split; [apply tree_kept_refl | apply settings_kept_refl]. Qed.

Lemma kept_trans w1 w2 w3 : kept w1 w2 → kept w2 w3 → kept w1 w3.
Proof.
  intros [H1 H2] [H1' H2']. split;
    [eapply tree_kept_trans | eapply settings_kept_trans]; eassumption.
Qed.

(** States with the same service and settings objects. *)
Lemma kept_same w w' :
  dbusservice w' = dbusservice w → settings w' = settings w → kept w w'.
Proof. intros H1 H2. unfold kept. rewrite H1, H2. apply kept_refl. Qed.

Lemma kept_stored p v w : p ∈ telemetry_paths → kept w (stored p v w).
Proof.
  intros Hp. split; [| apply settings_kept_refl]. simpl.
  destruct (dbusservice w) as [s |]; [| exact I]. now apply tree_kept_store.
Qed.

Section Closure.
Variable R : World → World → Prop.
Hypothesis R_refl : ∀ w, R w w.
Hypothesis R_trans : ∀ w1 w2 w3, R w1 w2 → R w2 w3 → R w1 w3.
Hypothesis R_logged : ∀ l m w, R w (logged l m w).
Hypothesis R_stored : ∀ p v w, p ∈ telemetry_paths → R w (stored p v w).

Lemma closure_bind {A B} (c : M A) (k : A → M B) :
  (∀ w, R w (c w).2) → (∀ a w, R w (k a w).2) → ∀ w, R w (bind c k w).2.
Proof.
  intros Hc Hk w. unfold bind. specialize (Hc w).
  destruct (c w) as [[e | a] w1]; simpl in *; [assumption |].
  eapply R_trans; [eassumption | apply Hk].
Qed.

Lemma closure_setitem p v : p ∈ telemetry_paths → ∀ w, R w (VeDbus.setitem p v w).2.
Proof.
  intros Hp w. rewrite setitem_eq. destruct (published w p); simpl; auto.
Qed.

Lemma closure_logging l m : ∀ w, R w (logging l m w).2.
Proof. intros w. apply R_logged. Qed.

Lemma closure_int x : ∀ w, R w (DbusService.int x w).2.
Proof.
  intros w. unfold DbusService.int. destruct x as [f |]; [| apply R_refl].
  destruct (Py.int_of_float f); apply R_refl.
Qed.

Lemma closure_get_position call : ∀ w, R w (Dishy.get_position call w).2.
Proof.
  intros w. destruct call as [r | c d].
  - destruct (Z.eq_dec (Pb.code (Pb.status r)) 0) as [H | H].
    + rewrite (get_position_ok r w H). apply R_refl.
    + rewrite (get_position_status r w H). apply R_logged.
  - rewrite get_position_fails. apply R_logged.
Qed.

Lemma closure_publish location : ∀ w, R w (DbusService.publish location w).2.
Proof.
  assert (HF : "/Fix" ∈ telemetry_paths) by (unfold telemetry_paths; repeat constructor).
  assert (HLa : "/Position/Latitude" ∈ telemetry_paths) by (unfold telemetry_paths; repeat constructor).
  assert (HLo : "/Position/Longitude" ∈ telemetry_paths) by (unfold telemetry_paths; repeat constructor).
  assert (HAl : "/Position/Altitude" ∈ telemetry_paths) by (unfold telemetry_paths; repeat constructor).
  unfold DbusService.publish.
  destruct (latitude location), (longitude location);
    repeat first [ apply closure_setitem; assumption | apply closure_logging | apply closure_int
                 | intros w; apply R_refl | apply closure_bind; [| intros ?] ].
Qed.

Lemma closure_refresh call : ∀ w, R w (DbusService.refresh call w).2.
Proof.
  apply closure_bind; [apply closure_get_position | intros; apply closure_publish].
Qed.

End Closure.

Lemma kept_refresh call w : kept w (DbusService.refresh call w).2.
Proof.
  apply (closure_refresh kept kept_refl kept_trans).
  - intros l m w0. now apply kept_same.
  - apply kept_stored.
Qed.

Lemma tree_kept_published w w' p :
  tree_kept (dbusservice w) (dbusservice w') → p ∉ telemetry_paths →
  published w' p = published w p.
Proof.
  unfold published. destruct (dbusservice w) as [s |], (dbusservice w') as [s' |];
    simpl; try tauto.
  intros (_ & _ & H) Hp. now rewrite (proj2 (H p) Hp).
Qed.

(** ** Startup, step by step *)

Lemma start_eq VERSION persisted r location_call :
  Pb.code (Pb.status r) = 0 →
  start VERSION persisted (Returns r) location_call
  = match DbusService.refresh location_call (created VERSION r persisted) with
    | (inl e, w1) => Aborted e w1
    | (inr _, w1) =>
        Running (self_of "192.168.100.1:9200" r)
          (logged Log.INFO Log.ServiceStarted
             (set_timeouts (timeouts w1 ++ [Timeout 60000 (clock w1 + 60000) ServiceRefresh])%list
                           w1))
    end.
Proof.
  intros Hc. unfold start, main. unfold bind at 1. rewrite (init_eq _ _ _ _ _ Hc).
  unfold bind at 1.
  destruct (DbusService.refresh location_call (created VERSION r persisted)) as [[e | v] w1];
    reflexivity.
Qed.

(** The paths of the tree that [__init__] builds: [/CustomName] is
    writeable with the change callback of line 103, every other path is
    read-only and has no callback. *)
Lemma created_flags VERSION info custom_name p it :
  created_tree VERSION info custom_name !! p = Some it →
  (p = "/CustomName" ∧ it = Item (Py.VStr custom_name) true
                                  (Some (LambdaWritableSetting "CustomName")))
  ∨ (p ≠ "/CustomName" ∧ writeable it = false ∧ onchangecallback it = None).
Proof.
  unfold created_tree. intros H.
  repeat (rewrite lookup_insert in H; case_decide;
          [ injection H as <-; subst p;
            first [ left; split; reflexivity
                  | right; repeat split; solve [discriminate | reflexivity] ] |]).
  rewrite lookup_empty in H. discriminate.
Qed.

Lemma flags_Some o it :
  o = Some it → flags o = Some (writeable it, onchangecallback it).
Proof. now intros ->. Qed.

Lemma flags_inv o o' it :
  flags o' = flags o → o' = Some it →
  ∃ it0, o = Some it0 ∧ writeable it = writeable it0
         ∧ onchangecallback it = onchangecallback it0.
Proof.
  intros H ->. destruct o as [it0 |]; [| discriminate].
  injection H as H1 H2. eauto.
Qed.

(** What a state that kept the created tree knows of a path. *)
Lemma kept_created_path VERSION r persisted w s p it :
  tree_kept (dbusservice (created VERSION r persisted)) (dbusservice w) →
  dbusservice w = Some s → paths s !! p = Some it →
  (p = "/CustomName" ∧ writeable it = true
   ∧ onchangecallback it = Some (LambdaWritableSetting "CustomName"))
  ∨ (p ≠ "/CustomName" ∧ writeable it = false ∧ onchangecallback it = None).
Proof.
  intros Hk Hs Hp. rewrite Hs in Hk. simpl in Hk. destruct Hk as (_ & _ & Hk).
  destruct (flags_inv _ _ it (proj1 (Hk p)) Hp) as (it0 & H0 & Hw & Hc).
  destruct (created_flags _ _ _ _ _ H0) as [(-> & ->) | (Hne & Hw0 & Hc0)].
  - left. simpl in Hw, Hc. auto.
  - right. rewrite Hw, Hc. auto.
Qed.

Lemma bind_get {B} (k : World → M B) w : bind get k w = k w w.
Proof. reflexivity. Qed.

(** ** Writes by bus clients *)

Lemma bus_write_running VERSION r persisted w path newvalue :
  tree_kept (dbusservice (created VERSION r persisted)) (dbusservice w) →
  (bus_SetValue path newvalue w).2 = w
  ∧ match published w path with
    | None => (bus_SetValue path newvalue w).1 = inl (Py.KeyError path)
    | Some current =>
        if decide (path = "/CustomName")
        then if py_eq newvalue current
             then (bus_SetValue path newvalue w).1 = inr 0
             else (bus_SetValue path newvalue w).1
                  = inl (Py.AttributeError "DbusService" "_handle_writable_setting_change")
        else (bus_SetValue path newvalue w).1 = inr 1
    end.
Proof.
  intros Hk. unfold bus_SetValue, published. rewrite !bind_get.
  destruct (dbusservice w) as [s |] eqn:Hs; [| split; reflexivity].
  destruct (paths s !! path) as [it |] eqn:Hp; [| split; reflexivity].
  rewrite <- Hs in Hk.
  destruct (kept_created_path _ _ _ w s path it Hk Hs Hp)
    as [(-> & Hw & Hc) | (Hne & Hw & Hc)]; rewrite Hw; cbn [negb].
  - rewrite decide_True by reflexivity.
    destruct (py_eq newvalue (value it)); [split; reflexivity |].
    rewrite Hc. split; reflexivity.
  - rewrite decide_False by assumption. split; reflexivity.
Qed.

(** ** Changes of settings by other clients *)

Lemma settings_change_kept VERSION r persisted w setting newvalue :
  kept (created VERSION r persisted) w →
  kept w (settings_changed_externally setting newvalue w).2
  ∧ dbusservice (settings_changed_externally setting newvalue w).2 = dbusservice w.
Proof.
  intros [_ Hk]. unfold settings_changed_externally. rewrite !bind_get.
  destruct (settings w) as [d |] eqn:Hs; [| split; [apply kept_refl | reflexivity]].
  simpl in Hk. destruct Hk as [Hc Hp].
  destruct (setting_paths d !! setting) as [p |] eqn:Hl;
    [| split; [apply kept_refl | reflexivity]].
  unfold handleChangedSetting, bind, get, modify. simpl. rewrite Hs, Hc. simpl.
  split; [| reflexivity]. split; simpl.
  - apply tree_kept_refl.
  - rewrite Hs. simpl. auto.
Qed.

(** ** The states of a running publisher *)

Lemma iteration_kept handle w : kept w (GLib.iteration handle w).2.
Proof.
  unfold GLib.iteration. destruct (GLib.next (timeouts w)) as [[t others] |];
    [| apply kept_refl].
  destruct t as [ms t []]. simpl.
  pose proof (kept_refresh handle (set_clock (Z.max (clock w) t) w)) as H.
  destruct (DbusService.refresh handle (set_clock (Z.max (clock w) t) w)) as [res w'].
  simpl in *. eapply kept_trans; [| eapply kept_trans; [exact H |]]; now apply kept_same.
Qed.

Lemma runs_inv VERSION persisted r w :
  runs VERSION persisted r w →
  Pb.code (Pb.status r) = 0 ∧ kept (created VERSION r persisted) w.
Proof.
  induction 1 as [lc service w H | handle w _ [Hc IH] | call w _ [Hc IH]
                  | path newvalue w _ [Hc IH] | setting newvalue w _ [Hc IH]].
  - pose proof (start_running _ _ _ _ _ _ H) as (r' & [= <-] & Hc & _).
    split; [exact Hc |]. rewrite (start_eq _ _ _ _ Hc) in H.
    pose proof (kept_refresh lc (created VERSION r persisted)) as Hk.
    destruct (DbusService.refresh lc (created VERSION r persisted)) as [[e | v] w1];
      [discriminate |].
    injection H as _ <-. eapply kept_trans; [exact Hk |]. now apply kept_same.
  - split; [exact Hc |]. eapply kept_trans; [exact IH | apply iteration_kept].
  - split; [exact Hc |]. eapply kept_trans; [exact IH | apply kept_refresh].
  - split; [exact Hc |].
    now rewrite (proj1 (bus_write_running _ _ _ w path newvalue (proj1 IH))).
  - split; [exact Hc |]. eapply kept_trans; [exact IH |].
    apply (settings_change_kept _ _ _ _ _ _ IH).
Qed.

Lemma runs_has_telemetry VERSION persisted r w :
  runs VERSION persisted r w → has_telemetry w.
Proof.
  intros H. apply runs_inv in H. destruct H as (_ & Hk & _).
  pose proof (created_has_telemetry VERSION r persisted) as Ht.
  unfold has_telemetry in *. eapply Forall_impl; [exact Ht |]. intros p.
  rewrite !is_Some_published. intros (s & Hs & Hp). rewrite Hs in Hk.
  simpl in Hk. destruct (dbusservice w) as [s' |]; [| contradiction].
  exists s'. split; [reflexivity |]. destruct Hk as (_ & _ & Hk).
  pose proof (proj1 (Hk p)) as Hf. unfold flags in Hf.
  destruct Hp as [it Hp]. simpl in Hp. rewrite Hp in Hf.
  destruct (paths s' !! p); [eauto | discriminate].
Qed.

(** A path that is none of the four telemetry paths. *)
Ltac not_telemetry :=
  let H := fresh in
  unfold telemetry_paths; intros H;
  repeat (apply elem_of_cons in H; destruct H as [H | H]; [discriminate H |]);
  apply elem_of_nil in H; exact H.

(** ** The client, outcome by outcome *)

(** X1. [get_position] returns a position only for a response with
    status 0, built from its location, and then adds nothing to the log;
    otherwise it raises: the [RpcError] of the channel, or
    [AttributeError] for a non-zero status. The warning of line 54 is
    never logged. *)
Theorem get_position_outcomes (handle : rpc) (w : World) :
  match Dishy.get_position handle w with
  | (inr p, w') =>
      ∃ r, handle = Returns r ∧ Pb.code (Pb.status r) = 0
           ∧ p = position_of (Pb.location r) ∧ w' = w
  | (inl e, w') =>
      ((∃ c d, handle = Fails c d ∧ e = Py.RpcError c d)
       ∨ (∃ r, handle = Returns r ∧ Pb.code (Pb.status r) ≠ 0
               ∧ e = Py.AttributeError "NoneType" "status"))
      ∧ ∃ rec, log w' = (log w ++ [rec])%list
               ∧ ∀ m c, Log.msg rec ≠ Log.LocationRequestFailed m c
  end.
Proof.
  destruct handle as [r | c d].
  - destruct (Z.eq_dec (Pb.code (Pb.status r)) 0) as [H | H].
    + rewrite (get_position_ok r w H). eauto.
    + rewrite (get_position_status r w H). split; [right; eauto |].
      eexists. split; [reflexivity |]. discriminate.
  - rewrite get_position_fails. split; [left; eauto |].
    eexists. split; [reflexivity |]. discriminate.
Qed.

(** X2. [get_device_info] returns the device info of a response with
    status 0 and leaves the state alone; a non-zero status makes it
    raise [AttributeError] after the warning of [_make_request], and a
    failure of the channel leaves it as the [RpcError]. *)
Theorem get_device_info_outcomes (handle : rpc) (w : World) :
  match Dishy.get_device_info handle w with
  | (inr info, w') =>
      ∃ r, handle = Returns r ∧ Pb.code (Pb.status r) = 0
           ∧ info = Pb.get_device_info r ∧ w' = w
  | (inl e, w') =>
      (∃ c d, handle = Fails c d ∧ e = Py.RpcError c d
              ∧ w' = logged Log.ERROR (Log.GrpcError c d) w)
      ∨ (∃ r, handle = Returns r ∧ Pb.code (Pb.status r) ≠ 0
              ∧ e = Py.AttributeError "NoneType" "get_device_info"
              ∧ w' = logged Log.WARNING
                       (Log.RequestFailed (Pb.message (Pb.status r))
                                          (Pb.code (Pb.status r))) w)
  end.
Proof.
  destruct handle as [r | c d].
  - destruct (Z.eq_dec (Pb.code (Pb.status r)) 0) as [H | H].
    + rewrite (get_device_info_ok r w H). eauto.
    + unfold Dishy.get_device_info.
      rewrite (bind_returns _ _ _ _ _ (make_request_status r w H)).
      right. exists r. auto.
  - unfold Dishy.get_device_info.
    rewrite (bind_raises _ _ _ _ _ (make_request_fails c d w)).
    left. eauto.
Qed.

(** ** Refresh *)

(** X3. Whatever the request meets and however [refresh] ends, it
    changes no published path other than the four telemetry paths, no
    flag or callback of any path, not the name or the registration of
    the service, not the settings object, the settings service, the
    timers or the clock; and when it returns, it returns [None]. *)
Theorem refresh_touches_telemetry_only (call : rpc) (w : World) :
  (∀ p, p ∉ telemetry_paths → published (DbusService.refresh call w).2 p = published w p)
  ∧ tree_kept (dbusservice w) (dbusservice (DbusService.refresh call w).2)
  ∧ settings (DbusService.refresh call w).2 = settings w
  ∧ localsettings (DbusService.refresh call w).2 = localsettings w
  ∧ localsettings_writes (DbusService.refresh call w).2 = localsettings_writes w
  ∧ timeouts (DbusService.refresh call w).2 = timeouts w
  ∧ clock (DbusService.refresh call w).2 = clock w
  ∧ ∀ v, (DbusService.refresh call w).1 = inr v → v = Py.RNone.
Proof.
  destruct (kept_refresh call w) as [Hk _].
  destruct (framed_refresh call w) as (Hs & Hl & Hn & Hc & Ht & _).
  split; [intros p Hp; now apply tree_kept_published |].
  repeat (split; [assumption |]). apply refresh_result.
Qed.

(** X4. A response with a non-zero status makes [refresh] raise
    [AttributeError] after one warning and leaves the published service
    as it was: the fix flag is not cleared by an explicit no-location
    status. *)
Theorem refresh_nonzero_status (r : Pb.Response) (w : World) :
  Pb.code (Pb.status r) ≠ 0 →
  DbusService.refresh (Returns r) w
  = (inl (Py.AttributeError "NoneType" "status"),
     logged Log.WARNING (Log.RequestFailed (Pb.message (Pb.status r)) (Pb.code (Pb.status r))) w)
  ∧ telemetry (DbusService.refresh (Returns r) w).2 = telemetry w.
Proof.
  intros H. unfold DbusService.refresh.
  rewrite (bind_raises _ _ _ _ _ (get_position_status r w H)). split; reflexivity.
Qed.

Lemma refresh_nonzero_status_witness :
  (DbusService.refresh (Returns Demo.unavailable) Demo.world).1
  = inl (Py.AttributeError "NoneType" "status")
  ∧ published (DbusService.refresh (Returns Demo.unavailable) Demo.world).2 "/Fix"
    = Some (Py.VInt 1).
Proof.
  assert (H : Pb.code (Pb.status Demo.unavailable) ≠ 0) by (simpl; lia).
  destruct (refresh_nonzero_status Demo.unavailable Demo.world H) as [E _].
  rewrite E. split; reflexivity.
Defined.

(** X5. When the dish reports latitude and longitude with an altitude
    that is an infinity or a NaN, [refresh] raises the error of [int]
    after it has set the fix flag to 1 and written latitude and
    longitude: the altitude and every other path keep their values and
    nothing is logged. *)
Theorem refresh_partial_update (r : Pb.Response) (l : Pb.LLA) (w : World) :
  Pb.code (Pb.status r) = 0 → Pb.lla (Pb.location r) = Some l →
  Py.is_finite (Pb.alt l) = false → has_telemetry w →
  ∃ e, DbusService.refresh (Returns r) w
       = (inl e,
          stored "/Position/Longitude" (Py.VFloat (Pb.lon l))
            (stored "/Position/Latitude" (Py.VFloat (Pb.lat l))
               (stored "/Fix" (Py.VInt 1) w)))
       ∧ Py.is_transport e = false
       ∧ telemetry (DbusService.refresh (Returns r) w).2
         = [ Some (Py.VInt 1); Some (Py.VFloat (Pb.lat l)); Some (Py.VFloat (Pb.lon l));
             published w "/Position/Altitude" ]
       ∧ log (DbusService.refresh (Returns r) w).2 = log w.
Proof.
  intros Hc Hl Hf Ht.
  destruct (publish_not_finite (Pb.lat l) (Pb.lon l) (Pb.alt l) w Ht Hf) as (e & E & Htr).
  exists e. unfold DbusService.refresh.
  rewrite (bind_returns _ _ _ _ _ (get_position_ok r w Hc)).
  unfold position_of. rewrite Hl, E.
  apply has_telemetry_inv in Ht. destruct Ht as (HF & HLa & HLo & _).
  split; [reflexivity |]. split; [exact Htr |]. split; [| reflexivity].
  unfold telemetry. simpl snd.
  repeat first [ rewrite published_stored_same
               | rewrite published_stored_other by discriminate ];
    try reflexivity;
    repeat first [ assumption | rewrite published_stored_other by discriminate ].
Qed.

Lemma refresh_partial_update_witness :
  ∃ e, (DbusService.refresh (Returns Demo.at_infinity) Demo.world).1 = inl e
       ∧ published (DbusService.refresh (Returns Demo.at_infinity) Demo.world).2
           "/Position/Altitude" = Some (Py.VInt 10).
Proof.
  assert (Hc : Pb.code (Pb.status Demo.at_infinity) = 0) by reflexivity.
  assert (Hl : Pb.lla (Pb.location Demo.at_infinity)
               = Some (Pb.MkLLA Demo.f47_6 Demo.fm122_3 (S754_infinity false)))
    by reflexivity.
  assert (Hf : Py.is_finite (S754_infinity false) = false) by reflexivity.
  assert (H : has_telemetry Demo.world) by (vm_compute; repeat econstructor).
  destruct (refresh_partial_update Demo.at_infinity _ Demo.world Hc Hl Hf H)
    as (e & E & _).
  exists e. rewrite E. split; [reflexivity | vm_compute; reflexivity].
Defined.

(** X6. In a state with the telemetry paths, [refresh] only appends to
    the log, and at most one record: one INFO record when it returns,
    the ERROR record of the channel failure when that is raised. *)
Theorem refresh_log (call : rpc) (w : World) :
  has_telemetry w →
  ∃ l, log (DbusService.refresh call w).2 = (log w ++ l)%list
       ∧ (length l ≤ 1)%nat
       ∧ (∀ v, (DbusService.refresh call w).1 = inr v →
               ∃ m, l = [Log.Record Log.INFO m])
       ∧ (∀ c d, (DbusService.refresh call w).1 = inl (Py.RpcError c d) →
                 l = [Log.Record Log.ERROR (Log.GrpcError c d)]).
Proof.
  intros Ht. pose proof (refresh_outcome call w Ht) as H.
  inversion H as [c d Hcall E | r Hc Hcall E | r Hc Hl Hcall E | r l Hc Hl Hf Hcall E
                  | r l e Hc Hl He Hcall E]; simpl.
  - eexists. split; [reflexivity |]. split; [simpl; lia |].
    split; [discriminate | now intros c' d' [= <- <-]].
  - eexists. split; [reflexivity |]. split; [simpl; lia |].
    split; discriminate.
  - eexists. split; [reflexivity |]. split; [simpl; lia |].
    split; [eauto | discriminate].
  - eexists. split; [reflexivity |]. split; [simpl; lia |].
    split; [eauto | discriminate].
  - exists []. split; [now rewrite app_nil_r |]. split; [simpl; lia |].
    split; [discriminate |]. intros c d [= ->].
    destruct (Pb.alt l); simpl in He; discriminate.
Qed.

Lemma refresh_log_witness :
  ∃ l, log (DbusService.refresh (Returns Demo.at_47_6) Demo.world).2
       = (log Demo.world ++ l)%list ∧ (length l ≤ 1)%nat.
Proof.
  assert (H : has_telemetry Demo.world) by (vm_compute; repeat econstructor).
  destruct (refresh_log (Returns Demo.at_47_6) Demo.world H) as (l & E & Hl & _).
  exists l. split; [exact E | exact Hl].
Defined.

(** ** The tree and the custom name of a running publisher *)

Lemma custom_name_of_eq sid persisted :
  custom_name_of sid persisted
  = default "Starlink" (persisted !! DbusService.custom_name_path sid).
Proof.
  unfold custom_name_of, persisted_after.
  destruct (persisted !! DbusService.custom_name_path sid) as [v |] eqn:E.
  - now rewrite E.
  - now rewrite lookup_insert_eq.
Qed.

Lemma runs_published VERSION persisted r w p :
  runs VERSION persisted r w → p ∉ telemetry_paths →
  published w p = published (created VERSION r persisted) p.
Proof.
  intros H Hp. apply runs_inv in H. destruct H as (_ & Hk & _).
  now apply tree_kept_published.
Qed.

Lemma runs_custom_name VERSION persisted r w :
  runs VERSION persisted r w →
  published w "/CustomName"
  = Some (Py.VStr (default "Starlink"
                     (persisted !! DbusService.custom_name_path
                                     (DbusService.short_id (Pb.id (Pb.get_device_info r)))))).
Proof.
  intros H. rewrite (runs_published _ _ _ _ "/CustomName" H) by not_telemetry.
  rewrite <- custom_name_of_eq. reflexivity.
Qed.

Lemma runs_settings VERSION persisted r w :
  runs VERSION persisted r w →
  ∃ d, settings w = Some d ∧ eventCallback d = None
       ∧ setting_paths d
         = <["CustomName" := DbusService.custom_name_path
                               (DbusService.short_id (Pb.id (Pb.get_device_info r)))]> ∅.
Proof.
  intros H. apply runs_inv in H. destruct H as (_ & _ & Hk). simpl in Hk.
  destruct (settings w) as [d |]; [| contradiction].
  destruct Hk as [Hc Hp]. eauto.
Qed.

(** X7. In every state of a running publisher, whatever refreshes,
    timer expiries, writes by bus clients and changes of settings came
    before, the service is registered under the name derived from the
    short id and the static paths read as [__init__] wrote them: the
    process name, the version of the version file, the connection, the
    device instance 1, the product id 45108, the product name, the
    firmware and hardware versions of the device info or "N/A", the
    connected flag 1, the serial number and the state 0x100. *)
Theorem static_paths_never_change (VERSION : string) (persisted : gmap string string)
    (r : Pb.Response) (w : World) :
  runs VERSION persisted r w →
  externally_visible w = true
  ∧ name <$> dbusservice w
    = Some (DbusService.service_name (DbusService.short_id (Pb.id (Pb.get_device_info r))))
  ∧ published w "/Management/ProcessName" = Some (Py.VStr "dbus-starlink")
  ∧ published w "/Management/ProcessVersion" = Some (Py.VStr VERSION)
  ∧ published w "/Management/Connection" = Some (Py.VStr "gRPC")
  ∧ published w "/DeviceInstance" = Some (Py.VInt 1)
  ∧ published w "/ProductId" = Some (Py.VInt 45108)
  ∧ published w "/ProductName" = Some (Py.VStr "Starlink")
  ∧ published w "/FirmwareVersion"
    = Some (Py.VStr (default "N/A" (Pb.software_version (Pb.get_device_info r))))
  ∧ published w "/HardwareVersion"
    = Some (Py.VStr (default "N/A" (Pb.hardware_version (Pb.get_device_info r))))
  ∧ published w "/Connected" = Some (Py.VInt 1)
  ∧ published w "/Serial" = Some (Py.VStr (Pb.id (Pb.get_device_info r)))
  ∧ published w "/State" = Some (Py.VInt 256).
Proof.
  intros H. pose proof (runs_inv _ _ _ _ H) as (_ & Hk & _).
  unfold externally_visible. simpl in Hk.
  destruct (dbusservice w) as [s |] eqn:Hs; [| contradiction].
  destruct Hk as (Hn & Hr & _). simpl. rewrite Hn, Hr.
  split; [reflexivity |]. split; [reflexivity |].
  repeat (split; [rewrite (runs_published _ _ _ _ _ H) by not_telemetry; reflexivity |]).
  rewrite (runs_published _ _ _ _ _ H) by not_telemetry; reflexivity.
Qed.

Lemma static_paths_never_change_witness :
  published (GLib.run [Returns Demo.at_47_6; Fails "StatusCode.UNAVAILABLE" ""] Demo.world).2
    "/Serial" = Some (Py.VStr "KU123456789")
  ∧ published (GLib.run [Returns Demo.at_47_6; Fails "StatusCode.UNAVAILABLE" ""] Demo.world).2
      "/HardwareVersion" = Some (Py.VStr "N/A").
Proof.
  assert (H0 : runs "1.0" ∅ Demo.device_info Demo.world).
  { apply (runs_start _ _ _ (Returns Demo.at_37)
             (self_of "192.168.100.1:9200" Demo.device_info)).
    vm_compute. reflexivity. }
  assert (H : runs "1.0" ∅ Demo.device_info
                (GLib.run [Returns Demo.at_47_6; Fails "StatusCode.UNAVAILABLE" ""]
                   Demo.world).2).
  { pose proof (runs_iteration _ _ _ (Fails "StatusCode.UNAVAILABLE" "") _
                  (runs_iteration _ _ _ (Returns Demo.at_47_6) _ H0)) as H.
    assert (E : (GLib.run [Returns Demo.at_47_6; Fails "StatusCode.UNAVAILABLE" ""]
                   Demo.world).2
                = (GLib.iteration (Fails "StatusCode.UNAVAILABLE" "")
                     (GLib.iteration (Returns Demo.at_47_6) Demo.world).2).2)
      by (vm_compute; reflexivity).
    rewrite E. exact H. }
  destruct (static_paths_never_change _ _ _ _ H)
    as (_ & _ & _ & _ & _ & _ & _ & _ & _ & Hh & _ & Hser & _).
  split; [exact Hser | exact Hh].
Defined.

(** X8. The published custom name is the value that the settings
    service held for this device when the process started, or
    "Starlink" when it held none, and it stays that value in every
    state of the running publisher. *)
Theorem custom_name_is_startup_value (VERSION : string) (persisted : gmap string string)
    (r : Pb.Response) (w : World) :
  runs VERSION persisted r w →
  published w "/CustomName"
  = Some (Py.VStr (default "Starlink"
                     (persisted !! ("/Settings/Devices/starlink_"
                                    ++ DbusService.short_id (Pb.id (Pb.get_device_info r))
                                    ++ "/CustomName")))).
Proof. apply runs_custom_name. Qed.

Lemma custom_name_is_startup_value_witness :
  published (settings_changed_externally "CustomName" "Boat" Demo.world).2 "/CustomName"
  = Some (Py.VStr "Starlink").
Proof.
  assert (H0 : runs "1.0" ∅ Demo.device_info Demo.world).
  { apply (runs_start _ _ _ (Returns Demo.at_37)
             (self_of "192.168.100.1:9200" Demo.device_info)).
    vm_compute. reflexivity. }
  exact (custom_name_is_startup_value _ _ _ _
           (runs_setting _ _ _ "CustomName" "Boat" _ H0)).
Defined.

(** X9. A custom name set by another client while the publisher runs
    is not lost: a process started afterwards on the persisted store,
    for the same device, publishes that name and leaves the store as it
    found it. *)
Theorem custom_name_survives_restart (VERSION VERSION' : string)
    (persisted : gmap string string) (r : Pb.Response) (w : World) (newvalue : string)
    (location_call : rpc) (service : DbusService.self) (w' : World) :
  runs VERSION persisted r w →
  start VERSION' (localsettings (settings_changed_externally "CustomName" newvalue w).2)
        (Returns r) location_call = Running service w' →
  published w' "/CustomName" = Some (Py.VStr newvalue)
  ∧ localsettings w' = localsettings (settings_changed_externally "CustomName" newvalue w).2.
Proof.
  intros H H'.
  destruct (runs_settings _ _ _ _ H) as (d & Hs & Hc & Hp).
  assert (Hl : setting_paths d !! "CustomName"
               = Some (DbusService.custom_name_path
                         (DbusService.short_id (Pb.id (Pb.get_device_info r)))))
    by (rewrite Hp; apply lookup_insert_eq).
  rewrite (settings_changed_externally_eq _ newvalue w d _ Hs Hl Hc) in *.
  simpl in *. split.
  - rewrite (runs_custom_name _ _ _ _ (runs_start _ _ _ _ _ _ H')).
    now rewrite lookup_insert_eq.
  - apply start_running in H'.
    destruct H' as (r' & [= <-] & _ & _ & _ & _ & _ & -> & _). simpl.
    unfold persisted_after. now rewrite lookup_insert_eq.
Qed.

Lemma custom_name_survives_restart_witness :
  published
    (world_of (start "1.1"
                 (localsettings (settings_changed_externally "CustomName" "Boat" Demo.world).2)
                 (Returns Demo.device_info) (Returns Demo.no_location)))
    "/CustomName" = Some (Py.VStr "Boat").
Proof.
  assert (H0 : runs "1.0" ∅ Demo.device_info Demo.world).
  { apply (runs_start _ _ _ (Returns Demo.at_37)
             (self_of "192.168.100.1:9200" Demo.device_info)).
    vm_compute. reflexivity. }
  pose (p := localsettings (settings_changed_externally "CustomName" "Boat" Demo.world).2).
  pose (w' := world_of (start "1.1" p (Returns Demo.device_info) (Returns Demo.no_location))).
  assert (H' : start "1.1" p (Returns Demo.device_info) (Returns Demo.no_location)
               = Running (self_of "192.168.100.1:9200" Demo.device_info) w')
    by (vm_compute; reflexivity).
  exact (proj1 (custom_name_survives_restart _ _ _ _ _ _ _ _ _ H0 H')).
Defined.

(** ** _setup_settings *)

Lemma setup_settings_eq sid w :
  DbusService._setup_settings sid w
  = (inr tt,
     set_localsettings (persisted_after sid (localsettings w)) (localsettings_writes w)
       (set_settings
          (Some (MkSettingsDevice (<["CustomName" := DbusService.custom_name_path sid]> ∅)
                                  (<["CustomName" := custom_name_of sid (localsettings w)]> ∅)
                                  None)) w)).
Proof. reflexivity. Qed.

(** X10. [_setup_settings] touches one key of the settings service, the
    custom name of this device: a value that is there is kept and
    cached, a missing one is created as "Starlink"; every other key is
    left alone, and so are the write count of the service, the
    published service, the log and the timers. The settings object it
    builds has no event callback. *)
Theorem setup_settings_touches_one_key (sid : string) (w : World) :
  (DbusService._setup_settings sid w).1 = inr tt
  ∧ (∀ k, k ≠ DbusService.custom_name_path sid →
          localsettings (DbusService._setup_settings sid w).2 !! k = localsettings w !! k)
  ∧ localsettings (DbusService._setup_settings sid w).2 !! DbusService.custom_name_path sid
    = Some (default "Starlink" (localsettings w !! DbusService.custom_name_path sid))
  ∧ (is_Some (localsettings w !! DbusService.custom_name_path sid) →
     localsettings (DbusService._setup_settings sid w).2 = localsettings w)
  ∧ (settings (DbusService._setup_settings sid w).2 ≫= fun d => values d !! "CustomName")
    = Some (default "Starlink" (localsettings w !! DbusService.custom_name_path sid))
  ∧ (eventCallback <$> settings (DbusService._setup_settings sid w).2) = Some None
  ∧ localsettings_writes (DbusService._setup_settings sid w).2 = localsettings_writes w
  ∧ dbusservice (DbusService._setup_settings sid w).2 = dbusservice w
  ∧ log (DbusService._setup_settings sid w).2 = log w
  ∧ timeouts (DbusService._setup_settings sid w).2 = timeouts w.
Proof.
  rewrite setup_settings_eq. simpl. unfold persisted_after.
  split; [reflexivity |]. split.
  { intros k Hk. destruct (localsettings w !! DbusService.custom_name_path sid);
      [reflexivity | now rewrite lookup_insert_ne]. }
  split.
  { destruct (localsettings w !! DbusService.custom_name_path sid) as [v |] eqn:E;
      [exact E | apply lookup_insert_eq]. }
  split.
  { intros [v E]. now rewrite E. }
  split; [rewrite lookup_insert_eq, custom_name_of_eq; reflexivity |].
  repeat split.
Qed.

Lemma setup_settings_touches_one_key_witness :
  localsettings (DbusService._setup_settings "6303b763" Demo.world).2 = localsettings Demo.world.
Proof.
  assert (H : is_Some (localsettings Demo.world !! DbusService.custom_name_path "6303b763"))
    by (vm_compute; eexists; reflexivity).
  destruct (setup_settings_touches_one_key "6303b763" Demo.world) as (_ & _ & _ & Hk & _).
  exact (Hk H).
Defined.

(** ** Startup *)

(** X11. When the device info is fetched and the first position request
    then fails, by a channel error or a non-zero status, the exception
    leaves [__init__] at its last statement: the process ends, but the
    complete tree has been registered on the bus before, with the
    telemetry at its initial values, and no timer is installed. *)
Theorem first_refresh_failure_after_register (VERSION : string)
    (persisted : gmap string string) (r : Pb.Response) (location_call : rpc) :
  Pb.code (Pb.status r) = 0 → fetch_fails location_call →
  ∃ e w, start VERSION persisted (Returns r) location_call = Aborted e w
         ∧ externally_visible w = true
         ∧ dbusservice w = dbusservice (created VERSION r persisted)
         ∧ telemetry w
           = [ Some (Py.VInt 0); Some (Py.VFloat (S754_zero false));
               Some (Py.VFloat (S754_zero false)); Some (Py.VFloat (S754_zero false)) ]
         ∧ timeouts w = [].
Proof.
  intros Hc Hf. rewrite (start_eq _ _ _ _ Hc).
  destruct location_call as [rl | c d]; simpl in Hf; unfold DbusService.refresh.
  - rewrite (bind_raises _ _ _ _ _ (get_position_status rl _ Hf)).
    eexists _, _. repeat split.
  - rewrite (bind_raises _ _ _ _ _ (get_position_fails c d _)).
    eexists _, _. repeat split.
Qed.

Lemma first_refresh_failure_after_register_witness :
  ∃ e w, start "1.0" ∅ (Returns Demo.device_info)
           (Fails "StatusCode.DEADLINE_EXCEEDED" "Deadline Exceeded") = Aborted e w
         ∧ externally_visible w = true.
Proof.
  assert (Hc : Pb.code (Pb.status Demo.device_info) = 0) by reflexivity.
  assert (Hf : fetch_fails (Fails "StatusCode.DEADLINE_EXCEEDED" "Deadline Exceeded"))
    by (simpl; exact I).
  destruct (first_refresh_failure_after_register "1.0" ∅ Demo.device_info _ Hc Hf)
    as (e & w & E & Hv & _).
  exists e, w. split; [exact E | exact Hv].
Defined.

Lemma int_of_float_finite f e : Py.int_of_float f = inl e → Py.is_finite f = false.
Proof. destruct f; simpl; intros H; try discriminate; reflexivity. Qed.

(** X12. A startup reaches the main loop exactly when both requests of
    the construction return status 0 and a returned altitude is a finite
    number. The main loop is then entered with the service registered,
    one timer due after 60000 ms, and three log records, the last one
    the start of the service. *)
Theorem startup_reaches_main_loop (VERSION : string) (persisted : gmap string string)
    (info_call location_call : rpc) :
  ((∃ service w, start VERSION persisted info_call location_call = Running service w)
   ↔ startable info_call location_call)
  ∧ ∀ service w,
      start VERSION persisted info_call location_call = Running service w →
      externally_visible w = true
      ∧ timeouts w = [Timeout 60000 60000 ServiceRefresh]
      ∧ length (log w) = 3%nat
      ∧ last (log w) = Some (Log.Record Log.INFO Log.ServiceStarted).
Proof.
  assert (Hrun : ∀ service w,
            start VERSION persisted info_call location_call = Running service w →
            startable info_call location_call
            ∧ externally_visible w = true
            ∧ timeouts w = [Timeout 60000 60000 ServiceRefresh]
            ∧ length (log w) = 3%nat
            ∧ last (log w) = Some (Log.Record Log.INFO Log.ServiceStarted)).
  { intros service w H.
    pose proof (start_running _ _ _ _ _ _ H) as (r & -> & Hc & _ & Ht & _).
    rewrite (start_eq _ _ _ _ Hc) in H.
    pose proof (refresh_outcome location_call _ (created_has_telemetry VERSION r persisted))
      as Ho.
    inversion Ho as [c d Hcall E | rl Hcl Hcall E | rl Hcl Hl Hcall E | rl l Hcl Hl Hf Hcall E
                     | rl l e Hcl Hl He Hcall E];
      subst location_call; rewrite <- E in H; try discriminate H; injection H as _ <-;
      (split; [simpl; rewrite ?Hl; auto |]); repeat split.
  }
  split; [split |].
  - intros (service & w & H). apply (Hrun service w H).
  - unfold startable. destruct info_call as [r | c d]; [| tauto].
    destruct location_call as [rl | c d]; [| tauto]. intros (Hc & Hcl & Hl).
    rewrite (start_eq _ _ _ _ Hc).
    pose proof (refresh_outcome (Returns rl) _ (created_has_telemetry VERSION r persisted))
      as Ho.
    inversion Ho as [| rl' Hcl' Hcall E | rl' Hcl' Hl' Hcall E | rl' l Hcl' Hl' Hf Hcall E
                     | rl' l e Hcl' Hl' He Hcall E]; subst rl'.
    + contradiction.
    + eauto.
    + eauto.
    + rewrite Hl' in Hl. apply int_of_float_finite in He. congruence.
  - intros service w H. apply (Hrun service w H).
Qed.

Lemma startup_reaches_main_loop_witness :
  startable (Returns Demo.device_info) (Returns Demo.at_37)
  ∧ ¬ startable (Returns Demo.device_info) (Returns Demo.at_infinity)
  ∧ length (log Demo.world) = 3%nat.
Proof.
  destruct (startup_reaches_main_loop "1.0" ∅ (Returns Demo.device_info) (Returns Demo.at_37))
    as [[Hto _] Hst].
  assert (H : start "1.0" ∅ (Returns Demo.device_info) (Returns Demo.at_37)
              = Running (self_of "192.168.100.1:9200" Demo.device_info) Demo.world)
    by (vm_compute; reflexivity).
  split; [apply Hto; eauto |]. split.
  - simpl. intros (_ & _ & Hf). discriminate Hf.
  - exact (proj1 (proj2 (proj2 (Hst _ _ H)))).
Defined.

(** ** Writes by bus clients to a running publisher *)

(** X13. No write by a bus client changes anything in a running
    publisher. A write to a read-only path, which every path but
    [/CustomName] is, is refused with 1; a write to a path that does
    not exist raises [KeyError]. *)
Theorem bus_write_changes_nothing (VERSION : string) (persisted : gmap string string)
    (r : Pb.Response) (w : World) (path : string) (newvalue : Py.value) :
  runs VERSION persisted r w →
  (bus_SetValue path newvalue w).2 = w
  ∧ (path ≠ "/CustomName" → is_Some (published w path) →
     (bus_SetValue path newvalue w).1 = inr 1)
  ∧ (published w path = None → (bus_SetValue path newvalue w).1 = inl (Py.KeyError path)).
Proof.
  intros H. apply runs_inv in H. destruct H as (_ & Hk & _).
  destruct (bus_write_running _ _ _ w path newvalue Hk) as [Hw Hr].
  split; [exact Hw |]. split.
  - intros Hne [cur Hcur]. rewrite Hcur in Hr. now rewrite decide_False in Hr.
  - intros Hnone. now rewrite Hnone in Hr.
Qed.

Lemma bus_write_changes_nothing_witness :
  bus_SetValue "/Fix" (Py.VInt 0) Demo.world = (inr 1, Demo.world).
Proof.
  assert (H0 : runs "1.0" ∅ Demo.device_info Demo.world).
  { apply (runs_start _ _ _ (Returns Demo.at_37)
             (self_of "192.168.100.1:9200" Demo.device_info)).
    vm_compute. reflexivity. }
  assert (Hne : "/Fix" ≠ "/CustomName") by discriminate.
  assert (Hs : is_Some (published Demo.world "/Fix")) by (vm_compute; eexists; reflexivity).
  destruct (bus_write_changes_nothing _ _ _ _ "/Fix" (Py.VInt 0) H0) as (Hw & Hr & _).
  specialize (Hr Hne Hs).
  destruct (bus_SetValue "/Fix" (Py.VInt 0) Demo.world) as [res w'].
  simpl in Hw, Hr. now rewrite Hw, Hr.
Defined.

(** X14. A bus client that writes a custom name other than the published
    one gets the [AttributeError] of the missing handler, and nothing
    changes: not the published name, not the settings service. Writing
    the published name again is accepted with 0, without any effect. *)
Theorem bus_write_custom_name (VERSION : string) (persisted : gmap string string)
    (r : Pb.Response) (w : World) (current newname : string) :
  runs VERSION persisted r w →
  published w "/CustomName" = Some (Py.VStr current) →
  (newname ≠ current →
   bus_SetValue "/CustomName" (Py.VStr newname) w
   = (inl (Py.AttributeError "DbusService" "_handle_writable_setting_change"), w))
  ∧ bus_SetValue "/CustomName" (Py.VStr current) w = (inr 0, w).
Proof.
  intros H Hcur. apply runs_inv in H. destruct H as (_ & Hk & _).
  split.
  - intros Hne.
    destruct (bus_write_running _ _ _ w "/CustomName" (Py.VStr newname) Hk) as [Hw Hr].
    rewrite Hcur in Hr. rewrite decide_True in Hr by reflexivity. simpl in Hr.
    apply String.eqb_neq in Hne. rewrite Hne in Hr.
    destruct (bus_SetValue "/CustomName" (Py.VStr newname) w) as [res w'].
    simpl in Hw, Hr. now rewrite Hw, Hr.
  - destruct (bus_write_running _ _ _ w "/CustomName" (Py.VStr current) Hk) as [Hw Hr].
    rewrite Hcur in Hr. rewrite decide_True in Hr by reflexivity. simpl in Hr.
    rewrite String.eqb_refl in Hr.
    destruct (bus_SetValue "/CustomName" (Py.VStr current) w) as [res w'].
    simpl in Hw, Hr. now rewrite Hw, Hr.
Qed.

Lemma bus_write_custom_name_witness :
  bus_SetValue "/CustomName" (Py.VStr "Boat") Demo.world
  = (inl (Py.AttributeError "DbusService" "_handle_writable_setting_change"), Demo.world).
Proof.
  assert (H0 : runs "1.0" ∅ Demo.device_info Demo.world).
  { apply (runs_start _ _ _ (Returns Demo.at_37)
             (self_of "192.168.100.1:9200" Demo.device_info)).
    vm_compute. reflexivity. }
  assert (Hc : published Demo.world "/CustomName" = Some (Py.VStr "Starlink"))
    by (vm_compute; reflexivity).
  assert (Hne : "Boat" ≠ "Starlink") by discriminate.
  exact (proj1 (bus_write_custom_name _ _ _ _ "Starlink" "Boat" H0 Hc) Hne).
Defined.

(** ** int *)

(** X15. [int] of an altitude returns exactly for the finite values, and
    its result is the value truncated toward zero: for a value [n / d]
    that is not negative the result [z] has [z <= n / d < z + 1], for one
    that is not positive [z - 1 < n / d <= z]. *)
Theorem int_truncates_toward_zero (f : spec_float) (z : Z) :
  Py.int_of_float f = inr z →
  Py.is_finite f = true
  ∧ (0 < (Py.fraction f).2)%Z
  ∧ ((0 ≤ (Py.fraction f).1)%Z →
     (z * (Py.fraction f).2 ≤ (Py.fraction f).1 < (z + 1) * (Py.fraction f).2)%Z)
  ∧ (((Py.fraction f).1 ≤ 0)%Z →
     ((z - 1) * (Py.fraction f).2 < (Py.fraction f).1 ≤ z * (Py.fraction f).2)%Z).
Proof.
  intros H.
  assert (Hfin : Py.is_finite f = true) by (destruct f; simpl in *; congruence).
  rewrite (int_of_float_trunc f Hfin) in H. injection H as <-.
  split; [exact Hfin |].
  assert (Hd : (0 < (Py.fraction f).2)%Z).
  { unfold Py.fraction. destruct f as [s | s | | s m e]; cbn [snd]; try lia.
    destruct (Z.leb_spec 0 e); [lia | apply Z.pow_pos_nonneg; lia]. }
  split; [exact Hd |]. unfold trunc.
  set (n := (Py.fraction f).1) in *. set (d := (Py.fraction f).2) in *.
  split; intros Hn.
  - rewrite Z.quot_div_nonneg by lia.
    pose proof (Z.mul_div_le n d Hd). pose proof (Z.mul_succ_div_gt n d Hd). lia.
  - replace n with (- - n) by lia. rewrite Z.quot_opp_l by lia.
    rewrite Z.quot_div_nonneg by lia.
    pose proof (Z.mul_div_le (- n) d Hd). pose proof (Z.mul_succ_div_gt (- n) d Hd). lia.
Qed.

Lemma int_truncates_toward_zero_witness :
  Py.int_of_float Demo.fm122_3 = inr (-122)
  ∧ ((-122 - 1) * (Py.fraction Demo.fm122_3).2 < (Py.fraction Demo.fm122_3).1)%Z.
Proof.
  assert (H : Py.int_of_float Demo.fm122_3 = inr (-122)) by (vm_compute; reflexivity).
  split; [exact H |].
  destruct (int_truncates_toward_zero Demo.fm122_3 (-122) H) as (_ & _ & _ & Hneg).
  apply Hneg. vm_compute. discriminate.
Defined.

(** ** The types of the telemetry *)

Lemma well_typed_ext w w' : dbusservice w' = dbusservice w → well_typed w → well_typed w'.
Proof. intros H. unfold well_typed, published. now rewrite H. Qed.

Lemma well_typed_refresh call w :
  has_telemetry w → well_typed w → well_typed (DbusService.refresh call w).2.
Proof.
  intros Ht (HF & HLa & HLo & HAl).
  pose proof (refresh_outcome call w Ht) as Ho.
  apply has_telemetry_inv in Ht. destruct Ht as (SF & SLa & SLo & SAl).
  inversion Ho as [c d Hcall E | r Hc Hcall E | r Hc Hl Hcall E | r l Hc Hl Hf Hcall E
                   | r l e Hc Hl He Hcall E]; simpl; unfold well_typed;
    rewrite ?published_logged.
  - auto.
  - auto.
  - rewrite (published_stored_same "/Fix") by assumption.
    rewrite !published_stored_other by discriminate. auto.
  - repeat first [ rewrite published_stored_same
                 | rewrite published_stored_other by discriminate ];
      [ eauto 10 | .. ];
      repeat first [ assumption | rewrite published_stored_other by discriminate ].
  - repeat first [ rewrite published_stored_same
                 | rewrite published_stored_other by discriminate ];
      [ eauto 10 | .. ];
      repeat first [ assumption | rewrite published_stored_other by discriminate ].
Qed.

Lemma well_typed_created VERSION r persisted : well_typed (created VERSION r persisted).
Proof. unfold well_typed. repeat split; eauto. Qed.

(** X16. In every state of a running publisher the fix flag is 0 or 1,
    the published latitude and longitude are floats, and the published
    altitude is an integer, or still the float 0.0 of line 94 when no
    altitude has been written yet. *)
Theorem telemetry_well_typed (VERSION : string) (persisted : gmap string string)
    (r : Pb.Response) (w : World) :
  runs VERSION persisted r w → well_typed w.
Proof.
  intros H. induction H as [lc service w H | handle w H IH | call w H IH
                            | path newvalue w H IH | setting newvalue w H IH].
  - pose proof (start_running _ _ _ _ _ _ H) as (r' & [= <-] & Hc & _).
    rewrite (start_eq _ _ _ _ Hc) in H.
    pose proof (well_typed_refresh lc _ (created_has_telemetry VERSION r persisted)
                  (well_typed_created VERSION r persisted)) as Hw.
    destruct (DbusService.refresh lc (created VERSION r persisted)) as [[e | v] w1];
      [discriminate |].
    injection H as _ <-. exact (well_typed_ext w1 _ eq_refl Hw).
  - pose proof (runs_has_telemetry _ _ _ _ H) as Ht.
    unfold GLib.iteration. destruct (GLib.next (timeouts w)) as [[t others] |]; [| exact IH].
    destruct t as [ms t []]. simpl.
    pose proof (well_typed_refresh handle (set_clock (Z.max (clock w) t) w) Ht
                  (well_typed_ext w _ eq_refl IH)) as Hw.
    destruct (DbusService.refresh handle (set_clock (Z.max (clock w) t) w)) as [res w1].
    exact (well_typed_ext w1 _ eq_refl Hw).
  - exact (well_typed_refresh call w (runs_has_telemetry _ _ _ _ H) IH).
  - pose proof (runs_inv _ _ _ _ H) as (_ & Hk & _).
    now rewrite (proj1 (bus_write_running _ _ _ w path newvalue Hk)).
  - pose proof (runs_inv _ _ _ _ H) as (_ & Hk).
    exact (well_typed_ext w _ (proj2 (settings_change_kept _ _ _ w setting newvalue Hk)) IH).
Qed.

Lemma telemetry_well_typed_witness :
  well_typed (DbusService.refresh (Returns Demo.at_infinity) Demo.world).2.
Proof.
  assert (H0 : runs "1.0" ∅ Demo.device_info Demo.world).
  { apply (runs_start _ _ _ (Returns Demo.at_37)
             (self_of "192.168.100.1:9200" Demo.device_info)).
    vm_compute. reflexivity. }
  exact (telemetry_well_typed _ _ _ _ (runs_refresh _ _ _ (Returns Demo.at_infinity) _ H0)).
Defined.

(** ** Names *)

Lemma append_length a b : String.length (a ++ b) = (String.length a + String.length b)%nat.
Proof. induction a as [| c a IH]; simpl; [reflexivity | now rewrite IH]. Qed.

Lemma append_inj_r t a b : a ++ t = b ++ t → a = b.
Proof.
  revert b. induction a as [| c a IH]; intros [| c' b] H; simpl in H.
  - reflexivity.
  - apply (f_equal String.length) in H. simpl in H. rewrite !append_length in H.
    simpl in H. lia.
  - apply (f_equal String.length) in H. simpl in H. rewrite !append_length in H.
    simpl in H. lia.
  - injection H as -> H. f_equal. now apply IH.
Qed.

Lemma append_inj_l t a b : t ++ a = t ++ b → a = b.
Proof. induction t as [| c t IH]; simpl; [auto | intros [= H]; auto]. Qed.

(** X17. Two devices with different short ids get different service
    names and different paths for the persisted custom name. *)
Theorem names_do_not_collide (sid sid' : string) :
  sid ≠ sid' →
  DbusService.service_name sid ≠ DbusService.service_name sid'
  ∧ DbusService.custom_name_path sid ≠ DbusService.custom_name_path sid'.
Proof.
  intros Hne. split; intros H; apply Hne.
  - now apply append_inj_l in H.
  - unfold DbusService.custom_name_path, DbusService.settings_path_prefix in H.
    apply append_inj_r in H. now apply append_inj_l in H.
Qed.

Lemma names_do_not_collide_witness :
  "6303b763" ≠ "6303b764"
  ∧ DbusService.service_name "6303b763" ≠ DbusService.service_name "6303b764".
Proof.
  assert (H : "6303b763" ≠ "6303b764") by discriminate.
  split; [exact H | exact (proj1 (names_do_not_collide _ _ H))].
Defined.

(** ** Sequences of events *)

Lemma fix_refresh_eq r l w :
  Pb.code (Pb.status r) = 0 → Pb.lla (Pb.location r) = Some l →
  Py.is_finite (Pb.alt l) = true → has_telemetry w →
  DbusService.refresh (Returns r) w
  = (inr Py.RNone,
     logged Log.INFO (Log.UpdatedPosition (Pb.lat l) (Pb.lon l) (Pb.alt l))
       (stored "/Position/Altitude" (Py.VInt (trunc (Pb.alt l)))
          (stored "/Position/Longitude" (Py.VFloat (Pb.lon l))
             (stored "/Position/Latitude" (Py.VFloat (Pb.lat l))
                (stored "/Fix" (Py.VInt 1) w))))).
Proof.
  intros Hc Hl Hf Ht. unfold DbusService.refresh.
  rewrite (bind_returns _ _ _ _ _ (get_position_ok r w Hc)).
  unfold position_of. rewrite Hl. now apply publish_fix.
Qed.

Lemma no_fix_refresh_eq r w :
  Pb.code (Pb.status r) = 0 → Pb.lla (Pb.location r) = None → has_telemetry w →
  DbusService.refresh (Returns r) w
  = (inr Py.RNone, logged Log.INFO Log.NoFix (stored "/Fix" (Py.VInt 0) w)).
Proof.
  intros Hc Hl Ht. unfold DbusService.refresh.
  rewrite (bind_returns _ _ _ _ _ (get_position_ok r w Hc)).
  unfold position_of. rewrite Hl.
  apply has_telemetry_inv in Ht. destruct Ht as (HF & _).
  apply publish_no_fix; [now left | exact HF].
Qed.

(** X18. A position that was published stays visible when the fix is
    lost: after a refresh that obtained a location with a finite
    altitude, a refresh that obtains no location sets the fix flag to 0
    and leaves latitude, longitude and the truncated altitude of the
    first refresh in place. *)
Theorem last_position_stays (r r' : Pb.Response) (l : Pb.LLA) (w : World) :
  Pb.code (Pb.status r) = 0 → Pb.lla (Pb.location r) = Some l →
  Py.is_finite (Pb.alt l) = true →
  Pb.code (Pb.status r') = 0 → Pb.lla (Pb.location r') = None →
  has_telemetry w →
  telemetry (DbusService.refresh (Returns r') (DbusService.refresh (Returns r) w).2).2
  = [ Some (Py.VInt 0); Some (Py.VFloat (Pb.lat l)); Some (Py.VFloat (Pb.lon l));
      Some (Py.VInt (trunc (Pb.alt l))) ].
Proof.
  intros Hc Hl Hf Hc' Hl' Ht.
  assert (Ht' : has_telemetry (DbusService.refresh (Returns r) w).2).
  { refine (kept_has_telemetry _ _ _ Ht).
    destruct (framed_refresh (Returns r) w) as (_ & _ & _ & _ & _ & Hk). exact Hk. }
  rewrite (no_fix_refresh_eq r' _ Hc' Hl' Ht').
  rewrite (fix_refresh_eq r l w Hc Hl Hf Ht). simpl snd.
  apply has_telemetry_inv in Ht. destruct Ht as (HF & HLa & HLo & HAl).
  unfold telemetry.
  repeat first [ rewrite published_logged
               | rewrite published_stored_eq
               | rewrite published_stored_other by discriminate ].
  destruct HF as [? ->], HLa as [? ->], HLo as [? ->], HAl as [? ->]. reflexivity.
Qed.

Lemma last_position_stays_witness :
  telemetry (DbusService.refresh (Returns Demo.no_location)
               (DbusService.refresh (Returns Demo.at_47_6) Demo.world).2).2
  = [ Some (Py.VInt 0); Some (Py.VFloat Demo.f47_6); Some (Py.VFloat Demo.fm122_3);
      Some (Py.VInt 15) ].
Proof.
  assert (H : has_telemetry Demo.world) by (vm_compute; repeat econstructor).
  assert (Htr : trunc Demo.f15_7 = 15) by (vm_compute; reflexivity).
  rewrite <- Htr.
  exact (last_position_stays Demo.at_47_6 Demo.no_location
           (Pb.MkLLA Demo.f47_6 Demo.fm122_3 Demo.f15_7) Demo.world
           eq_refl eq_refl eq_refl eq_refl eq_refl H).
Defined.

Lemma iteration_store handle w :
  localsettings (GLib.iteration handle w).2 = localsettings w
  ∧ localsettings_writes (GLib.iteration handle w).2 = localsettings_writes w.
Proof.
  unfold GLib.iteration. destruct (GLib.next (timeouts w)) as [[t others] |];
    [| split; reflexivity].
  destruct t as [ms t []]. simpl.
  destruct (framed_refresh handle (set_clock (Z.max (clock w) t) w)) as (_ & Hl & Hn & _).
  destruct (DbusService.refresh handle (set_clock (Z.max (clock w) t) w)) as [res w'].
  simpl in *. auto.
Qed.

(** X19. A running publisher never writes to the settings service:
    neither a refresh, nor an iteration of the main loop, nor a write by
    a bus client changes a persisted value or adds to the writes the
    service has served. *)
Theorem publisher_never_writes_settings (VERSION : string) (persisted : gmap string string)
    (r : Pb.Response) (w : World) :
  runs VERSION persisted r w →
  (∀ call, localsettings (DbusService.refresh call w).2 = localsettings w
           ∧ localsettings_writes (DbusService.refresh call w).2 = localsettings_writes w)
  ∧ (∀ handle, localsettings (GLib.iteration handle w).2 = localsettings w
               ∧ localsettings_writes (GLib.iteration handle w).2 = localsettings_writes w)
  ∧ (∀ path newvalue,
       localsettings (bus_SetValue path newvalue w).2 = localsettings w
       ∧ localsettings_writes (bus_SetValue path newvalue w).2 = localsettings_writes w).
Proof.
  intros H. apply runs_inv in H. destruct H as (_ & Hk & _).
  split; [| split].
  - intros call. destruct (framed_refresh call w) as (_ & Hl & Hn & _). auto.
  - intros handle. apply iteration_store.
  - intros path newvalue.
    now rewrite (proj1 (bus_write_running _ _ _ w path newvalue Hk)).
Qed.

Lemma publisher_never_writes_settings_witness :
  localsettings_writes (bus_SetValue "/CustomName" (Py.VStr "Boat") Demo.world).2 = 0%nat.
Proof.
  assert (H0 : runs "1.0" ∅ Demo.device_info Demo.world).
  { apply (runs_start _ _ _ (Returns Demo.at_37)
             (self_of "192.168.100.1:9200" Demo.device_info)).
    vm_compute. reflexivity. }
  destruct (publisher_never_writes_settings _ _ _ _ H0) as (_ & _ & Hw).
  exact (proj2 (Hw "/CustomName" (Py.VStr "Boat"))).
Defined.
